(** * Smart Trendz: order tracking core, verified against its TypeScript source

    A shallow embedding of the core of the application:
    - [Js]: the fragment of JavaScript's value coercions and string functions
      the handlers rely on ([ToNumber], [parseFloat], [parseInt], [split],
      [padStart], template literals);
    - [Utils]: [src/lib/utils.ts] (amount paid, balance, days to due, urgency
      tier and label, order numbers);
    - [Branch]: [src/lib/branch.ts], the branch access policy;
    - [Server]: the store behind Prisma, the session and the side channels,
      with the monad the handlers run in;
    - [ActivityLogger]: [src/lib/activity-log.ts];
    - [LegacyPayments], [Payments], [WeeklyPayments]: the route handlers that
      list and record payments;
    - [UtilsRest], [OrdersRoute], [Dashboard], [PaymentsPage]: the rest of
      [src/lib/utils.ts] and what the orders route, the dashboard and the
      payments page make of it;
    - [ActivityLogs]: the queries of [src/lib/activity-log.ts] and their
      route;
    - [Notifications]: the SMS reminder of [src/lib/notifications.ts].

    Strings are ASCII.  A handler is a function from the world to an outcome
    (a value or a thrown error) and a new world.

    Numbers.  JavaScript numbers are IEEE doubles.  Money is modelled here by
    exact rationals [Q] extended with [NaN] and the two infinities, and day
    counts and order sequence numbers by [Z]; rounding of doubles is outside
    the model. *)

From Stdlib Require Import Bool List String Ascii ZArith QArith Lia Lqa.
From Stdlib Require Import DecimalString DecimalPos DecimalN Permutation.
Import ListNotations.

Local Open Scope string_scope.
Local Open Scope Z_scope.

(* ===================================================================== *)
(** ** JavaScript strings and numbers *)
(* ===================================================================== *)

Module Js.

(** [String(n)] / a template literal [`${n}`] for an integer. *)
Definition intToString (z : Z) : string :=
  NilZero.string_of_int (Z.to_int z).

(** [s.startsWith(p)] *)
Fixpoint startsWith (s p : string) {struct p} : bool :=
  match p with
  | EmptyString => true
  | String c p' =>
      match s with
      | EmptyString => false
      | String d s' => Ascii.eqb c d && startsWith s' p'
      end
  end.

(** [s.padStart(n, c)] for a one-character filler. *)
Definition padStart (n : nat) (c : ascii) (s : string) : string :=
  string_of_list_ascii (repeat c (n - String.length s)) ++ s.

(** [s.split(sep)] for a one-character separator; the result is never empty
    ([''.split('-')] is [['']]). *)
Fixpoint split (sep : ascii) (s : string) : list string :=
  match s with
  | EmptyString => [EmptyString]
  | String c s' =>
      if Ascii.eqb c sep then EmptyString :: split sep s'
      else match split sep s' with
           | h :: t => String c h :: t
           | [] => [String c EmptyString]
           end
  end.

(** *** Numbers *)

(** A JavaScript number: [NaN], an infinity, or a finite value. *)
Inductive JsNum : Set :=
| NaN
| Inf (negative : bool)
| Fin (q : Q).

(** [a <= b] and [a > b] on numbers: every comparison with [NaN] is false. *)
Definition num_leb (a b : JsNum) : bool :=
  match a, b with
  | NaN, _ | _, NaN => false
  | Inf true, _ => true
  | _, Inf false => true
  | Inf false, _ => false
  | _, Inf true => false
  | Fin x, Fin y => Qle_bool x y
  end.

Definition num_gtb (a b : JsNum) : bool :=
  match a, b with
  | NaN, _ | _, NaN => false
  | Inf false, Inf false => false
  | Inf false, _ => true
  | Inf true, _ => false
  | Fin _, Inf true => true
  | Fin _, Inf false => false
  | Fin x, Fin y => negb (Qle_bool x y)
  end.

Definition num_opp (a : JsNum) : JsNum :=
  match a with
  | NaN => NaN
  | Inf s => Inf (negb s)
  | Fin q => Fin (- q)
  end.

(** *** Scanning numerals *)

(** StrWhiteSpaceChar, within ASCII: TAB, LF, VT, FF, CR and space. *)
Definition isWhiteSpace (c : ascii) : bool :=
  let n := nat_of_ascii c in
  ((9 <=? n) && (n <=? 13))%nat || (n =? 32)%nat.

Fixpoint trimStart (s : string) : string :=
  match s with
  | String c s' => if isWhiteSpace c then trimStart s' else s
  | EmptyString => EmptyString
  end.

(** Only white space is left. *)
Definition isBlank (s : string) : bool :=
  match trimStart s with EmptyString => true | _ => false end.

(** The value of a digit in radix up to 16. *)
Definition digitValue (c : ascii) : option Z :=
  let n := Z.of_nat (nat_of_ascii c) in
  if (48 <=? n) && (n <=? 57) then Some (n - 48)
  else if (97 <=? n) && (n <=? 102) then Some (n - 87)
  else if (65 <=? n) && (n <=? 70) then Some (n - 55)
  else None.

Definition digitIn (radix : Z) (c : ascii) : option Z :=
  match digitValue c with
  | Some d => if d <? radix then Some d else None
  | None => None
  end.

(** The longest prefix of digits of [s] in [radix]: how many there are, their
    value on top of [acc], and what follows them. *)
Fixpoint scanDigits (radix : Z) (acc : Z) (count : nat) (s : string)
  : Z * nat * string :=
  match s with
  | String c s' =>
      match digitIn radix c with
      | Some d => scanDigits radix (acc * radix + d) (S count) s'
      | None => (acc, count, s)
      end
  | EmptyString => (acc, count, s)
  end.

(** An optional sign: [true] for [-]. *)
Definition scanSign (s : string) : bool * string :=
  match s with
  | String "-" s' => (true, s')
  | String "+" s' => (false, s')
  | _ => (false, s)
  end.

(** [parseInt(s)] without a radix argument: leading white space, a sign, a
    [0x] prefix for radix 16, then the longest run of digits; [None] is
    [NaN]. *)
Definition parseInt (s : string) : option Z :=
  let (neg, t) := scanSign (trimStart s) in
  let hex := startsWith t "0x" || startsWith t "0X" in
  let radix := if hex then 16 else 10 in
  let body := if hex then String.substring 2 (String.length t - 2) t else t in
  match scanDigits radix 0 0 body with
  | (_, O, _) => None
  | (v, _, _) => Some (if neg then - v else v)
  end.

(** The exponent part of a decimal literal, when one is there: [e] or [E], a
    sign, at least one digit. *)
Definition scanExponent (s : string) : Z * string :=
  match s with
  | String c s' =>
      if Ascii.eqb c "e" || Ascii.eqb c "E" then
        let (neg, t) := scanSign s' in
        match scanDigits 10 0 0 t with
        | (_, O, _) => (0, s)
        | (e, _, rest) => (if neg then - e else e, rest)
        end
      else (0, s)
  | EmptyString => (0, s)
  end.

(** The longest prefix of [s] that is an unsigned StrDecimalLiteral, with its
    value and what follows it. *)
Definition scanUnsignedDecimal (s : string) : option (JsNum * string) :=
  if startsWith s "Infinity" then
    Some (Inf false, String.substring 8 (String.length s - 8) s)
  else
    let '(int, nint, afterInt) := scanDigits 10 0 0 s in
    let '(mant, nfrac, afterFrac) :=
      match afterInt with
      | String "." s' => scanDigits 10 int 0 s'
      | _ => (int, O, afterInt)
      end in
    match nint, nfrac with
    | O, O => None
    | _, _ =>
        let (e, rest) := scanExponent afterFrac in
        Some (Fin (inject_Z mant * Qpower 10 (e - Z.of_nat nfrac)), rest)
    end.

Definition scanDecimal (s : string) : option (JsNum * string) :=
  let (neg, t) := scanSign s in
  match scanUnsignedDecimal t with
  | Some (v, rest) => Some (if neg then num_opp v else v, rest)
  | None => None
  end.

(** [parseFloat(s)] on a string: the longest decimal literal after leading
    white space, whatever follows it. *)
Definition parseFloatString (s : string) : JsNum :=
  match scanDecimal (trimStart s) with
  | Some (v, _) => v
  | None => NaN
  end.

(** A [0x], [0o] or [0b] literal: only digits of the radix up to the end. *)
Definition nonDecimalRadix (s : string) : option Z :=
  match s with
  | String "0" (String c _) =>
      if Ascii.eqb c "x" || Ascii.eqb c "X" then Some 16
      else if Ascii.eqb c "o" || Ascii.eqb c "O" then Some 8
      else if Ascii.eqb c "b" || Ascii.eqb c "B" then Some 2
      else None
  | _ => None
  end.

(** [Number(s)] on a string (StringToNumber): the whole string, white space
    trimmed, must be one numeric literal; the empty string is 0. *)
Definition StringToNumber (s : string) : JsNum :=
  let t := trimStart s in
  if isBlank t then Fin 0
  else
    match nonDecimalRadix t with
    | Some radix =>
        match scanDigits radix 0 0 (String.substring 2 (String.length t - 2) t) with
        | (_, O, _) => NaN
        | (v, _, rest) => if isBlank rest then Fin (inject_Z v) else NaN
        end
    | None =>
        match scanDecimal t with
        | Some (v, rest) => if isBlank rest then v else NaN
        | None => NaN
        end
    end.

(** [a || null] on an optional string, and the test [if (a)]: the empty
    string counts as absent. *)
Definition orNull (a : option string) : option string :=
  match a with
  | Some s => if String.eqb s "" then None else Some s
  | None => None
  end.

(** *** Values of a JSON request body *)

(** The primitive values a field of a parsed JSON body can hold; [VUndefined]
    is an absent field.  Arrays and objects are left out. *)
Inductive JsValue : Set :=
| VUndefined
| VNull
| VBool (b : bool)
| VNum (n : JsNum)
| VStr (s : string).

(** ToBoolean: what [!v] negates. *)
Definition ToBoolean (v : JsValue) : bool :=
  match v with
  | VUndefined | VNull => false
  | VBool b => b
  | VNum NaN => false
  | VNum (Inf _) => true
  | VNum (Fin q) => negb (Qeq_bool q 0)
  | VStr s => negb (String.eqb s "")
  end.

(** ToNumber: what a comparison with a number applies to its other side. *)
Definition ToNumber (v : JsValue) : JsNum :=
  match v with
  | VUndefined => NaN
  | VNull => Fin 0
  | VBool b => Fin (if b then 1 else 0)
  | VNum n => n
  | VStr s => StringToNumber s
  end.

(** [parseFloat(v)]: [v] is first turned into a string.  The text of a number
    parses back to that number; ["undefined"], ["null"], ["true"] and
    ["false"] are no numerals. *)
Definition parseFloat (v : JsValue) : JsNum :=
  match v with
  | VNum n => n
  | VStr s => parseFloatString s
  | VUndefined | VNull | VBool _ => NaN
  end.

(** A template literal, kept as its pieces: text and interpolated values. *)
Inductive Piece : Set :=
| Text (s : string)
| Interpolated (v : JsValue).

Definition Template : Set := list Piece.

End Js.

(* ===================================================================== *)
(** ** src/lib/utils.ts *)
(* ===================================================================== *)

Module Utils.

(** [type DueDateUrgency = 'safe' | 'warning-5' | 'warning-3' | 'warning-1' | 'overdue'] *)
Inductive DueDateUrgency : Set :=
| Safe | Warning5 | Warning3 | Warning1 | Overdue.

Definition DueDateUrgency_eqb (a b : DueDateUrgency) : bool :=
  match a, b with
  | Safe, Safe | Warning5, Warning5 | Warning3, Warning3
  | Warning1, Warning1 | Overdue, Overdue => true
  | _, _ => false
  end.

(** A [Date] is its local wall-clock time in milliseconds; the time zone is a
    fixed offset, already folded in. *)
Definition Date := Z.

Definition msPerDay : Z := 86400000.

(** [d.setHours(0, 0, 0, 0)]: back to local midnight. *)
Definition setHours0 (d : Date) : Date := d - d mod msPerDay.

(** The local calendar day a date falls on, as a day count. *)
Definition dayIndex (d : Date) : Z := d / msPerDay.

(** date-fns [differenceInDays]: the number of full days between two dates,
    truncated towards zero. *)
Definition differenceInDays (dateLeft dateRight : Date) : Z :=
  Z.quot (dateLeft - dateRight) msPerDay.

(** [calculateDaysToDue(dueDate)]; [now] is what [new Date()] returns. *)
Definition calculateDaysToDue (now : Date) (dueDate : Date) : Z :=
  let today := setHours0 now in
  let due := setHours0 dueDate in
  differenceInDays due today.

(** [getDueDateUrgency(dueDate)] *)
Definition getDueDateUrgency (now : Date) (dueDate : Date) : DueDateUrgency :=
  let days := calculateDaysToDue now dueDate in
  if days <=? 0 then Overdue
  else if days <=? 1 then Warning1
  else if days <=? 3 then Warning3
  else if days <=? 5 then Warning5
  else Safe.

(** [getUrgencyLabel(urgency, days)] for an integer [days]. *)
Definition getUrgencyLabel (urgency : DueDateUrgency) (days : Z) : string :=
  if DueDateUrgency_eqb urgency Overdue then
    (if days =? 0 then "Due Today"
     else Js.intToString (Z.abs days) ++ " days overdue")
  else if days =? 1 then "Due Tomorrow"
  else Js.intToString days ++ " days left".

(** The fields of Prisma's [Payment] and [Order] rows the core reads. *)
Record Payment : Set := mkPayment {
  paymentId : nat;
  paymentOrderId : string;
  amount : Q;
  paymentDate : Date;
  paymentMethod : string;
  note : option string;
  paymentCreatedBy : option string
}.

Record Order : Set := mkOrder {
  orderId : string;
  orderNumber : string;
  orderBranchId : string;
  totalAmount : Q;
  dueDate : Date
}.

(** [calculateAmountPaid(payments)]:
    [payments.reduce((sum, payment) => sum + payment.amount, 0)] *)
Definition calculateAmountPaid (payments : list Payment) : Q :=
  fold_left (fun sum payment => sum + amount payment)%Q payments 0%Q.

(** [calculateBalance(totalAmount, amountPaid)] *)
Definition calculateBalance (totalAmount amountPaid : Q) : Q :=
  (totalAmount - amountPaid)%Q.

(** [String(n)] of what [parseInt(..) + 1] gave. *)
Definition numberToString (n : option Z) : string :=
  match n with
  | Some z => Js.intToString z
  | None => "NaN"
  end.

(** [`T-${year}-`] *)
Definition orderPrefix (year : N) : string :=
  "T-" ++ Js.intToString (Z.of_N year) ++ "-".

(** [generateOrderNumber(lastOrderNumber)]; [year] is what
    [new Date().getFullYear()] returns, a year of the common era. *)
Definition generateOrderNumber (year : N) (lastOrderNumber : option string)
  : string :=
  let prefix := orderPrefix year in
  match lastOrderNumber with
  | None => prefix ++ "0001"
  | Some last =>
      if String.eqb last "" || negb (Js.startsWith last prefix) then
        prefix ++ "0001"
      else
        let lastNumber :=
          match nth_error (Js.split "-" last) 2 with
          | Some part => Js.parseInt part
          | None => None
          end in
        let nextNumber :=
          Js.padStart 4 "0" (numberToString (option_map (fun n => n + 1) lastNumber)) in
        prefix ++ nextNumber
  end.

End Utils.

(* ===================================================================== *)
(** ** src/lib/branch.ts *)
(* ===================================================================== *)

Module Branch.

(** [interface SessionUser]; an absent or [null] [branchId] is [None]. *)
Record SessionUser : Set := mkUser {
  id : string;
  name : string;
  email : string;
  role : string;
  branchId : option string;
  branchName : option string
}.

(** What evaluating an expression that may [throw] gives. *)
Inductive Outcome (A : Type) : Type :=
| Returned (a : A)
| Thrown (message : string).
Arguments Returned {A} a.
Arguments Thrown {A} message.

(** [sessionUser?.role === 'ADMIN'] *)
Definition isAdmin (sessionUser : SessionUser) : bool :=
  String.eqb (role sessionUser) "ADMIN".

(** [resolveBranchId(sessionUser, bodyBranchId?)] *)
Definition resolveBranchId (sessionUser : SessionUser)
  (bodyBranchId : option string) : option string :=
  if isAdmin sessionUser then
    match bodyBranchId with
    | Some b => Some b
    | None => branchId sessionUser
    end
  else branchId sessionUser.

(** [hasAccessToBranch(sessionUser, targetBranchId)] *)
Definition hasAccessToBranch (sessionUser : SessionUser)
  (targetBranchId : string) : bool :=
  if isAdmin sessionUser then true
  else
    match branchId sessionUser with
    | Some b => String.eqb b targetBranchId
    | None => false
    end.

(** The Prisma where clause [{ branchId?: string }]. *)
Record BranchFilter : Set := mkFilter { filterBranchId : option string }.

(** [buildBranchFilter(sessionUser)] *)
Definition buildBranchFilter (sessionUser : SessionUser)
  : Outcome BranchFilter :=
  if isAdmin sessionUser then Returned (mkFilter None)
  else
    match branchId sessionUser with
    | None => Thrown "User not assigned to a branch"
    | Some b =>
        if String.eqb b "" then Thrown "User not assigned to a branch"
        else Returned (mkFilter (Some b))
    end.

End Branch.

(* ===================================================================== *)
(** ** The server side: store, session, side channels *)
(* ===================================================================== *)

Module Server.
Import Utils Branch.

(** [type ActivityAction] and [type ActivityEntity] of src/lib/activity-log.ts *)
Inductive ActivityAction : Set := CREATE | UPDATE | DELETE.
Inductive ActivityEntity : Set := ORDER | CUSTOMER | PAYMENT | USER.

(** A row of Prisma's [ActivityLog]; [metadata] is a JSON object. *)
Record ActivityLog : Set := mkActivityLog {
  logUserId : string;
  logUserName : string;
  logBranchId : string;
  logAction : ActivityAction;
  logEntity : ActivityEntity;
  logEntityId : option string;
  logDescription : Js.Template;
  logMetadata : option (list (string * Js.JsValue))
}.

(** What [sendPaymentConfirmationSMS] is handed. *)
Record Sms : Set := mkSms {
  smsOrderNumber : string;
  smsAmount : Js.JsNum;
  smsBalance : Q
}.

(** Everything a request handler reads or writes: the tables, the session
    next-auth holds for the request, and the two side channels with the
    failure each of them is about to have, if any.  [clock] is what
    [new Date()] returns. *)
Record World : Type := mkWorld {
  orders : list Order;
  payments : list Payment;
  activityLogs : list ActivityLog;
  session : option SessionUser;
  clock : Date;
  auditFailure : option string;
  smsFailure : option string;
  outbox : list Sms;
  console : list string
}.

Definition withPayments (w : World) (ps : list Payment) : World :=
  mkWorld (orders w) ps (activityLogs w) (session w) (clock w)
          (auditFailure w) (smsFailure w) (outbox w) (console w).

Definition withActivityLogs (w : World) (ls : list ActivityLog) : World :=
  mkWorld (orders w) (payments w) ls (session w) (clock w)
          (auditFailure w) (smsFailure w) (outbox w) (console w).

Definition withAuditFailure (w : World) (f : option string) : World :=
  mkWorld (orders w) (payments w) (activityLogs w) (session w) (clock w)
          f (smsFailure w) (outbox w) (console w).

Definition withOutbox (w : World) (o : list Sms) : World :=
  mkWorld (orders w) (payments w) (activityLogs w) (session w) (clock w)
          (auditFailure w) (smsFailure w) o (console w).

Definition withConsole (w : World) (c : list string) : World :=
  mkWorld (orders w) (payments w) (activityLogs w) (session w) (clock w)
          (auditFailure w) (smsFailure w) (outbox w) c.

(** *** Computations that read and write the world and may throw *)

Definition M (A : Type) : Type := World -> Outcome A * World.

Definition ret {A : Type} (a : A) : M A := fun w => (Returned a, w).

Definition throw {A : Type} (message : string) : M A :=
  fun w => (Thrown message, w).

Definition bind {A B : Type} (m : M A) (k : A -> M B) : M B :=
  fun w =>
    match m w with
    | (Returned a, w') => k a w'
    | (Thrown e, w') => (Thrown e, w')
    end.

(** [try { body } catch (error) { handler }] *)
Definition tryCatch {A : Type} (body : M A) (handler : string -> M A) : M A :=
  fun w =>
    match body w with
    | (Returned a, w') => (Returned a, w')
    | (Thrown e, w') => handler e w'
    end.

Declare Scope server_scope.
Delimit Scope server_scope with server.
Notation "x <- m ;; k" := (bind m (fun x => k))
  (at level 61, m at next level, right associativity) : server_scope.
Notation "m ;;; k" := (bind m (fun _ => k))
  (at level 61, right associativity) : server_scope.
Local Open Scope server_scope.

(** [console.error(label, error)] *)
Definition console_error (label error : string) : M unit :=
  fun w => (Returned tt, withConsole w (console w ++ [label ++ " " ++ error])).

(** Modelled from the spec: [requireAuth] of src/lib/auth.ts is not among the
    sources.  The session collaborator supplies the user descriptor; the
    handlers answer 401 to an error whose message is ['Unauthorized'], which is
    what a request without a session gets. *)
Definition requireAuth : M SessionUser :=
  fun w =>
    match session w with
    | Some user => (Returned user, w)
    | None => (Thrown "Unauthorized", w)
    end.

(** *** Prisma queries *)

(** [include: { order: ... }]: the order a payment row points to. *)
Definition orderOf (w : World) (p : Payment) : option Order :=
  find (fun o => String.eqb (orderId o) (paymentOrderId p)) (orders w).

(** [include: { payments: true }]: the payments of an order. *)
Definition paymentsOf (w : World) (oid : string) : list Payment :=
  filter (fun p => String.eqb (paymentOrderId p) oid) (payments w).

(** [prisma.order.findUnique({ where: { id }, include: { payments: true } })] *)
Definition order_findUnique (oid : string) : M (option (Order * list Payment)) :=
  fun w =>
    (Returned
       match find (fun o => String.eqb (orderId o) oid) (orders w) with
       | Some o => Some (o, paymentsOf w oid)
       | None => None
       end, w).

(** The [data] of [prisma.payment.create]. *)
Record PaymentData : Set := mkPaymentData {
  dataOrderId : string;
  dataAmount : Js.JsNum;
  dataPaymentDate : Date;
  dataPaymentMethod : string;
  dataNote : option string;
  dataCreatedBy : option string
}.

(** [prisma.payment.create({ data, include: { order: { include: { payments:
    true } } } })]: the row is appended and comes back with its order and all
    the payments of that order.  A [Float] column takes finite numbers only,
    and the order must exist. *)
Definition payment_create (data : PaymentData)
  : M (Payment * Order * list Payment) :=
  fun w =>
    match dataAmount data with
    | Js.Fin q =>
        let p := mkPayment (List.length (payments w)) (dataOrderId data) q
                   (dataPaymentDate data) (dataPaymentMethod data)
                   (dataNote data) (dataCreatedBy data) in
        let w' := withPayments w (payments w ++ [p]) in
        match orderOf w' p with
        | Some o => (Returned (p, o, paymentsOf w' (dataOrderId data)), w')
        | None => (Thrown "Foreign key constraint failed", w)
        end
    | _ => (Thrown "Invalid value for argument amount", w)
    end.

(** [prisma.activityLog.create({ data })] *)
Definition activityLog_create (data : ActivityLog) : M ActivityLog :=
  fun w =>
    match auditFailure w with
    | Some message => (Thrown message, w)
    | None => (Returned data, withActivityLogs w (activityLogs w ++ [data]))
    end.

(** [sendPaymentConfirmationSMS(phone, name, orderNumber, amount, balance)] of
    src/lib/notifications.ts, as far as the payment route sees it. *)
Definition sendPaymentConfirmationSMS (orderNumber : string)
  (amount : Js.JsNum) (balance : Q) : M unit :=
  fun w =>
    match smsFailure w with
    | Some message => (Thrown message, w)
    | None =>
        (Returned tt, withOutbox w (outbox w ++ [mkSms orderNumber amount balance]))
    end.

End Server.

(* ===================================================================== *)
(** ** src/lib/activity-log.ts *)
(* ===================================================================== *)

Module ActivityLogger.
Import Branch Server.
Local Open Scope server_scope.

(** [interface LogActivityParams] *)
Record LogActivityParams : Set := mkParams {
  userId : string;
  userName : string;
  branchId : string;
  action : ActivityAction;
  entity : ActivityEntity;
  entityId : option string;
  description : Js.Template;
  metadata : option (list (string * Js.JsValue))
}.

Section LogActivity.

(** The write [logActivity] awaits: [prisma.activityLog.create]. *)
Variable create : ActivityLog -> M ActivityLog.

(** [logActivity(params)] *)
Definition logActivityWith (params : LogActivityParams) : M unit :=
  tryCatch
    (create (mkActivityLog (userId params) (userName params) (branchId params)
               (action params) (entity params) (Js.orNull (entityId params))
               (description params) (metadata params)) ;;;
     ret tt)
    (fun error => console_error "Failed to log activity:" error).

End LogActivity.

Definition logActivity : LogActivityParams -> M unit :=
  logActivityWith activityLog_create.

End ActivityLogger.

(* ===================================================================== *)
(** ** The payment routes *)
(* ===================================================================== *)

Module Api.
Import Utils Branch Server.
Local Open Scope server_scope.

(** A day of the weekly report, and the report. *)
Record WeeklyDay : Set := mkDay {
  date : Z;
  dayName : string;
  total : Q;
  count : nat;
  dayPayments : list Payment
}.

Record WeeklyReport : Set := mkReport {
  startDate : Z;
  endDate : Z;
  reportTotalAmount : Q;
  totalCount : nat;
  byMethod : list (string * (nat * Q));
  byDay : list WeeklyDay;
  allPayments : list (Payment * option Order)
}.

(** The JSON a handler answers with.  [ExceedsBalance balance] stands for
    [{ error: `Payment amount exceeds outstanding balance (...)` }] with the
    balance it quotes. *)
Inductive Body : Set :=
| ErrorBody (error : string)
| ExceedsBalance (balance : Q)
| PaymentList (rows : list (Payment * option Order))
| PaymentCreated (payment : Payment) (order : Order) (orderPayments : list Payment)
| Weekly (report : WeeklyReport).

Record Response : Set := mkResponse { body : Body; status : nat }.

(** [NextResponse.json(body, { status })] *)
Definition json (b : Body) (st : nat) : M Response := ret (mkResponse b st).

(** The [where] of [prisma.payment.findMany]. *)
Record PaymentWhere : Set := mkWhere {
  whereOrderId : option string;
  wherePaymentDate : option (Date * Date);
  whereOrder : BranchFilter
}.

Definition matchesWhere (w : World) (clause : PaymentWhere) (p : Payment) : bool :=
  match whereOrderId clause with
  | Some oid => String.eqb (paymentOrderId p) oid
  | None => true
  end
  &&
  match wherePaymentDate clause with
  | Some (gte, lte) => (gte <=? paymentDate p) && (paymentDate p <=? lte)
  | None => true
  end
  &&
  match filterBranchId (whereOrder clause) with
  | Some b =>
      match orderOf w p with
      | Some o => String.eqb (orderBranchId o) b
      | None => false
      end
  | None => true
  end.

(** [orderBy: { paymentDate: ... }] as a stable insertion sort. *)
Fixpoint insertBy (before : Payment -> Payment -> bool) (p : Payment)
  (sorted : list Payment) : list Payment :=
  match sorted with
  | [] => [p]
  | q :: rest =>
      if before q p then q :: insertBy before p rest else p :: q :: rest
  end.

Definition sortBy (before : Payment -> Payment -> bool) (l : list Payment)
  : list Payment :=
  fold_left (fun sorted p => insertBy before p sorted) l [].

Definition asc (p q : Payment) : bool := paymentDate p <=? paymentDate q.
Definition desc (p q : Payment) : bool := paymentDate q <=? paymentDate p.

(** [prisma.payment.findMany({ where, include: { order }, orderBy })] *)
Definition payment_findMany (clause : PaymentWhere)
  (before : Payment -> Payment -> bool) : M (list (Payment * option Order)) :=
  fun w =>
    (Returned
       (map (fun p => (p, orderOf w p))
            (sortBy before (filter (matchesWhere w clause) (payments w)))), w).

(** The query string of [GET /api/payments]; a date parameter is held as the
    [Date] it parses to. *)
Record PaymentQuery : Set := mkQuery {
  queryOrderId : option string;
  queryStartDate : option Date;
  queryEndDate : option Date
}.

Definition dateRange (q : PaymentQuery) : option (Date * Date) :=
  match queryStartDate q, queryEndDate q with
  | Some s, Some e => Some (s, e)
  | _, _ => None
  end.

(** The JSON body of [POST /api/payments]. *)
Record PaymentRequest : Set := mkRequest {
  reqOrderId : option string;
  reqAmount : Js.JsValue;
  reqPaymentDate : option Date;
  reqPaymentMethod : option string;
  reqNote : option string
}.

(** [payments.reduce((sum, p) => sum + p.amount, 0)] *)
Definition sumAmounts (ps : list Payment) : Q :=
  fold_left (fun sum p => sum + amount p)%Q ps 0%Q.

End Api.

(** *** tailor-shop/src/app/api/payments/route.ts *)

Module LegacyPayments.
Import Utils Branch Server Api.
Local Open Scope server_scope.

(** [GET /api/payments] *)
Definition GET (q : PaymentQuery) : M Response :=
  tryCatch
    (payments <- payment_findMany
                   (mkWhere (Js.orNull (queryOrderId q)) (dateRange q) (mkFilter None))
                   desc ;;
     json (PaymentList payments) 200)
    (fun error =>
       console_error "Error fetching payments:" error ;;;
       json (ErrorBody "Failed to fetch payments") 500).

(** [POST /api/payments] *)
Definition POST (req : PaymentRequest) : M Response :=
  tryCatch
    (let amount := reqAmount req in
     let paymentMethod :=
       match reqPaymentMethod req with Some m => m | None => "CASH" end in
     match Js.orNull (reqOrderId req) with
     | None => json (ErrorBody "Order ID and valid amount are required") 400
     | Some orderId =>
         if negb (Js.ToBoolean amount)
            || Js.num_leb (Js.ToNumber amount) (Js.Fin 0)
         then json (ErrorBody "Order ID and valid amount are required") 400
         else
           found <- order_findUnique orderId ;;
           match found with
           | None => json (ErrorBody "Order not found") 404
           | Some (order, orderPayments) =>
               let totalPaid := sumAmounts orderPayments in
               let balance := (totalAmount order - totalPaid)%Q in
               if Js.num_gtb (Js.ToNumber amount) (Js.Fin balance)
               then json (ExceedsBalance balance) 400
               else
                 now <- (fun w => (Returned (clock w), w)) ;;
                 created <- payment_create
                   (mkPaymentData orderId (Js.parseFloat amount)
                      (match reqPaymentDate req with Some d => d | None => now end)
                      paymentMethod (Js.orNull (reqNote req)) None) ;;
                 let '(payment, paidOrder, paidPayments) := created in
                 let totalPaidAfter := sumAmounts paidPayments in
                 let newBalance := (totalAmount paidOrder - totalPaidAfter)%Q in
                 tryCatch
                   (sendPaymentConfirmationSMS (orderNumber paidOrder)
                      (Js.parseFloat amount) newBalance)
                   (fun smsError =>
                      console_error "Failed to send payment confirmation SMS:" smsError) ;;;
                 json (PaymentCreated payment paidOrder paidPayments) 201
           end
     end)
    (fun error =>
       console_error "Error creating payment:" error ;;;
       json (ErrorBody "Failed to create payment") 500).

End LegacyPayments.

(** *** src/app/api/payments/route.ts, the multi-branch version *)

Module Payments.
Import Utils Branch Server Api ActivityLogger.
Local Open Scope server_scope.

(** [error.message || fallback] *)
Definition messageOr (message fallback : string) : string :=
  if String.eqb message "" then fallback else message.

(** [error.message === 'Unauthorized' ? 401 : 500] *)
Definition errorStatus (message : string) : nat :=
  if String.eqb message "Unauthorized" then 401%nat else 500%nat.

(** [GET /api/payments] *)
Definition GET (q : PaymentQuery) : M Response :=
  tryCatch
    (user <- requireAuth ;;
     let clause := mkWhere (Js.orNull (queryOrderId q)) (dateRange q) in
     if negb (String.eqb (role user) "ADMIN") then
       match Js.orNull (Branch.branchId user) with
       | None => json (ErrorBody "User not assigned to a branch") 400
       | Some b =>
           payments <- payment_findMany (clause (mkFilter (Some b))) desc ;;
           json (PaymentList payments) 200
       end
     else
       payments <- payment_findMany (clause (mkFilter None)) desc ;;
       json (PaymentList payments) 200)
    (fun error =>
       console_error "Error fetching payments:" error ;;;
       json (ErrorBody (messageOr error "Failed to fetch payments")) (errorStatus error)).

(** [POST /api/payments] *)
Definition POST (req : PaymentRequest) : M Response :=
  tryCatch
    (user <- requireAuth ;;
     let amount := reqAmount req in
     let paymentMethod :=
       match reqPaymentMethod req with Some m => m | None => "CASH" end in
     match Js.orNull (reqOrderId req) with
     | None => json (ErrorBody "Order ID and valid amount are required") 400
     | Some orderId =>
         if negb (Js.ToBoolean amount)
            || Js.num_leb (Js.ToNumber amount) (Js.Fin 0)
         then json (ErrorBody "Order ID and valid amount are required") 400
         else
           found <- order_findUnique orderId ;;
           match found with
           | None => json (ErrorBody "Order not found") 404
           | Some (order, orderPayments) =>
               if negb (hasAccessToBranch user (orderBranchId order))
               then json (ErrorBody "Order not found") 403
               else
               let totalPaid := sumAmounts orderPayments in
               let balance := (totalAmount order - totalPaid)%Q in
               if Js.num_gtb (Js.ToNumber amount) (Js.Fin balance)
               then json (ExceedsBalance balance) 400
               else
                 now <- (fun w => (Returned (clock w), w)) ;;
                 created <- payment_create
                   (mkPaymentData orderId (Js.parseFloat amount)
                      (match reqPaymentDate req with Some d => d | None => now end)
                      paymentMethod (Js.orNull (reqNote req)) (Some (id user))) ;;
                 let '(payment, paidOrder, paidPayments) := created in
                 let totalPaidAfter := sumAmounts paidPayments in
                 let newBalance := (totalAmount paidOrder - totalPaidAfter)%Q in
                 logActivity
                   (mkParams (id user) (name user) (orderBranchId order)
                      CREATE PAYMENT
                      (Some (Js.intToString (Z.of_nat (paymentId payment))))
                      [Js.Text "Recorded payment of GHS "; Js.Interpolated amount;
                       Js.Text " for order "; Js.Text (orderNumber order)]
                      (Some [("orderNumber", Js.VStr (orderNumber order));
                             ("amount", Js.VNum (Js.parseFloat amount));
                             ("paymentMethod", Js.VStr paymentMethod);
                             ("totalPaid", Js.VNum (Js.Fin totalPaidAfter));
                             ("balance", Js.VNum (Js.Fin newBalance))])) ;;;
                 tryCatch
                   (sendPaymentConfirmationSMS (orderNumber paidOrder)
                      (Js.parseFloat amount) newBalance)
                   (fun smsError =>
                      console_error "Failed to send payment confirmation SMS:" smsError) ;;;
                 json (PaymentCreated payment paidOrder paidPayments) 201
           end
     end)
    (fun error =>
       console_error "Error creating payment:" error ;;;
       json (ErrorBody (messageOr error "Failed to create payment")) (errorStatus error)).

End Payments.

(** *** src/app/api/reports/weekly-payments/route.ts *)

Module WeeklyPayments.
Import Utils Branch Server Api.
Local Open Scope server_scope.

(** [format(d, 'yyyy-MM-dd')]: the text names the local calendar day of [d]
    and nothing else; the model keeps the day as its count. *)
Definition format_yyyyMMdd (d : Date) : Z := dayIndex d.

(** [format(d, 'EEEE')]: the day of the week; day 0 is a Thursday. *)
Definition format_EEEE (d : Date) : string :=
  nth (Z.to_nat ((dayIndex d + 3) mod 7))
      ["Monday"; "Tuesday"; "Wednesday"; "Thursday"; "Friday"; "Saturday"; "Sunday"]
      "".

(** date-fns [eachDayOfInterval({ start, end })]: the start of every day from
    the day of [start] to the day of [end]; an interval that ends before it
    starts is a [RangeError]. *)
Definition eachDayOfInterval (start finish : Date) : Outcome (list Date) :=
  if finish <? start then Thrown "Invalid interval"
  else
    Returned
      (map (fun k => setHours0 start + Z.of_nat k * msPerDay)
           (seq 0 (Z.to_nat (dayIndex finish - dayIndex start + 1)))).

(** The step of the [byMethod] reduction: count and total per payment method,
    methods in the order they first occur. *)
Fixpoint addToMethod (acc : list (string * (nat * Q))) (method : string)
  (amt : Q) : list (string * (nat * Q)) :=
  match acc with
  | [] => [(method, (1%nat, (0 + amt)%Q))]
  | (m, (c, t)) :: rest =>
      if String.eqb m method then (m, (S c, (t + amt)%Q)) :: rest
      else (m, (c, t)) :: addToMethod rest method amt
  end.

(** One entry of [byDay]. *)
Definition dayBucket (payments : list Payment) (day : Date) : WeeklyDay :=
  let dayPayments :=
    filter (fun p => format_yyyyMMdd (paymentDate p) =? format_yyyyMMdd day)
           payments in
  mkDay (format_yyyyMMdd day) (format_EEEE day) (sumAmounts dayPayments)
        (List.length dayPayments) dayPayments.

(** What the handler computes from the payments it fetched. *)
Definition aggregate (rows : list (Payment * option Order))
  (startDate endDate : Date) : Outcome WeeklyReport :=
  let payments := map fst rows in
  let totalAmount := sumAmounts payments in
  let byMethod :=
    fold_left (fun acc payment =>
                 addToMethod acc (paymentMethod payment) (amount payment))
              payments [] in
  match eachDayOfInterval startDate endDate with
  | Thrown e => Thrown e
  | Returned days =>
      Returned
        (mkReport (format_yyyyMMdd startDate) (format_yyyyMMdd endDate)
           totalAmount (List.length payments) byMethod
           (map (dayBucket payments) days) rows)
  end.

(** [GET /api/reports/weekly-payments]; a date parameter is held as the
    [Date] it parses to. *)
Definition GET (startDateParam endDateParam : option Date) : M Response :=
  tryCatch
    (match startDateParam, endDateParam with
     | Some startDate, Some endDate =>
         payments <- payment_findMany
                       (mkWhere None (Some (startDate, endDate)) (mkFilter None))
                       asc ;;
         match aggregate payments startDate endDate with
         | Returned report => json (Weekly report) 200
         | Thrown e => throw e
         end
     | _, _ => json (ErrorBody "Start date and end date are required") 400
     end)
    (fun error =>
       console_error "Error fetching weekly payments:" error ;;;
       json (ErrorBody "Failed to fetch weekly payments") 500).

End WeeklyPayments.

(* ===================================================================== *)
(** ** Vocabulary of the statements *)
(* ===================================================================== *)

Module Vocabulary.
Import Utils.

(** The label as the specification words it: the four cases in the order they
    are listed, the first that applies. *)
Definition urgencyLabel_spec (urgency : DueDateUrgency) (daysToDue : Z) : string :=
  if DueDateUrgency_eqb urgency Overdue && (daysToDue =? 0) then "Due Today"
  else if DueDateUrgency_eqb urgency Overdue && (daysToDue <? 0) then
    Js.intToString (Z.abs daysToDue) ++ " days overdue"
  else if daysToDue =? 1 then "Due Tomorrow"
  else Js.intToString daysToDue ++ " days left".

(** The tier of a day difference, as [getDueDateUrgency] assigns it. *)
Definition tierOf (d : Z) : DueDateUrgency := getDueDateUrgency 0 (d * msPerDay).

(** The character of a decimal digit. *)
Definition digitChar (d : Z) : ascii := ascii_of_nat (Z.to_nat (48 + d)).

(** A four-digit suffix, most significant digit first. *)
Definition fourDigits (a b c d : Z) : string :=
  String (digitChar a) (String (digitChar b)
    (String (digitChar c) (String (digitChar d) EmptyString))).

(** Whether [c] occurs in [s]. *)
Fixpoint hasChar (c : ascii) (s : string) : bool :=
  match s with
  | EmptyString => false
  | String d s' => Ascii.eqb d c || hasChar c s'
  end.

(** Whether [s] is made of decimal digits only. *)
Fixpoint allDecimal (s : string) : bool :=
  match s with
  | EmptyString => true
  | String c s' =>
      match Js.digitIn 10 c with
      | Some _ => allDecimal s'
      | None => false
      end
  end.

(** The number a run of decimal digits denotes. *)
Definition decimalValue (s : string) : Z := fst (fst (Js.scanDigits 10 0 0 s)).

(** Two worlds that differ at most in the audit trail: the activity log, the
    failure its store is about to have, and the console. *)
Definition sameBusiness (w1 w2 : Server.World) : Prop :=
  Server.orders w1 = Server.orders w2 /\
  Server.payments w1 = Server.payments w2 /\
  Server.session w1 = Server.session w2 /\
  Server.clock w1 = Server.clock w2 /\
  Server.smsFailure w1 = Server.smsFailure w2 /\
  Server.outbox w1 = Server.outbox w2.

(** A computation whose outcome and whose effect on everything but the audit
    trail do not depend on the audit trail. *)
Definition auditBlind {A : Type} (m : Server.M A) : Prop :=
  forall w1 w2,
    sameBusiness w1 w2 ->
    fst (m w1) = fst (m w2) /\ sameBusiness (snd (m w1)) (snd (m w2)).

End Vocabulary.

(** An amount as a payment form sends it when it is a plain number [a]:
    comparisons and [parseFloat] read the same number, and a positive one is
    truthy. *)
Definition readsAs (amount : Js.JsValue) (a : Q) : Prop :=
  Js.ToNumber amount = Js.Fin a /\
  Js.parseFloat amount = Js.Fin a /\
  (0 < a -> Js.ToBoolean amount = true)%Q.

(* ===================================================================== *)
(** ** A shop with two branches *)
(* ===================================================================== *)

Module Scenario.
Import Utils Branch Server Api.

Definition accraOrder : Order := mkOrder "o1" "T-2025-0001" "B1" 100 0.
Definition koforiduaOrder : Order := mkOrder "o2" "T-2025-0002" "B2" 450 0.

Definition accraPayment : Payment :=
  mkPayment 0 "o1" 20 (2 * msPerDay + 36000000) "CASH" None None.
Definition koforiduaPayment : Payment :=
  mkPayment 1 "o2" 200 (4 * msPerDay + 54000000) "MOMO" None None.

(** A member of staff of branch B1. *)
Definition ama : SessionUser :=
  mkUser "u1" "Ama" "ama@smarttrendz.example" "STAFF" (Some "B1") (Some "Accra").

(** Two orders, one per branch, a payment on each; Ama is signed in. *)
Definition shop : World :=
  mkWorld [accraOrder; koforiduaOrder] [accraPayment; koforiduaPayment] []
          (Some ama) (3 * msPerDay) None None [] [].

(** The week the two payments fall in. *)
Definition weekStart : Date := 0.
Definition weekEnd : Date := 7 * msPerDay - 1.

End Scenario.

(* ===================================================================== *)
(** ** src/lib/utils.ts, the remaining functions *)
(* ===================================================================== *)

Module UtilsRest.
Import Utils.

(** The Tailwind classes [getUrgencyColor] returns. *)
Record UrgencyColor : Set := mkColor {
  bg : string;
  text : string;
  border : string
}.

(** [getUrgencyColor(urgency)] *)
Definition getUrgencyColor (urgency : DueDateUrgency) : UrgencyColor :=
  match urgency with
  | Overdue => mkColor "bg-red-50" "text-red-700" "border-red-400"
  | Warning1 => mkColor "bg-rose-50" "text-rose-700" "border-rose-300"
  | Warning3 => mkColor "bg-amber-50" "text-amber-700" "border-amber-300"
  | Warning5 => mkColor "bg-yellow-50" "text-yellow-700" "border-yellow-300"
  | Safe => mkColor "bg-slate-50" "text-slate-700" "border-slate-200"
  end.

(** The day of the week of a date, Monday being 0; day 0 is a Thursday. *)
Definition weekday (d : Date) : Z := (dayIndex d + 3) mod 7.

(** date-fns [startOfWeek(d, { weekStartsOn: 1 })]: midnight of the Monday
    on or before [d]. *)
Definition startOfWeek (d : Date) : Date :=
  (dayIndex d - weekday d) * msPerDay.

(** date-fns [endOfWeek(d, { weekStartsOn: 1 })]: the last millisecond of the
    Sunday on or after [d]. *)
Definition endOfWeek (d : Date) : Date :=
  (dayIndex d - weekday d + 7) * msPerDay - 1.

(** [getCurrentWeek()] *)
Definition getCurrentWeek (now : Date) : Date * Date :=
  (startOfWeek now, endOfWeek now).

(** [getLastWeek()] *)
Definition getLastWeek (now : Date) : Date * Date :=
  let lastWeek := now - 7 * 24 * 60 * 60 * 1000 in
  (startOfWeek lastWeek, endOfWeek lastWeek).

(** What [enrichOrder] adds to an order. *)
Record EnrichedOrder : Set := mkEnriched {
  order : Order;
  orderPayments : list Payment;
  amountPaid : Q;
  balance : Q;
  daysToDue : Z;
  urgency : DueDateUrgency
}.

(** [enrichOrder(order)], the order coming with its payments. *)
Definition enrichOrder (now : Date) (o : Order) (payments : list Payment)
  : EnrichedOrder :=
  let amountPaid := calculateAmountPaid payments in
  let balance := calculateBalance (totalAmount o) amountPaid in
  let daysToDue := calculateDaysToDue now (dueDate o) in
  let urgency := getDueDateUrgency now (dueDate o) in
  mkEnriched o payments amountPaid balance daysToDue urgency.

(** How pressing a tier is: 0 for safe up to 4 for overdue. *)
Definition pressure (u : DueDateUrgency) : Z :=
  match u with
  | Safe => 0 | Warning5 => 1 | Warning3 => 2 | Warning1 => 3 | Overdue => 4
  end.

End UtilsRest.

(* ===================================================================== *)
(** ** src/app/api/orders/route.ts: how POST numbers a new order *)
(* ===================================================================== *)

Module OrdersRoute.
Import Utils Server.

(** [prisma.order.findFirst({ orderBy: { orderNumber: 'desc' }, select: {
    orderNumber: true } })]: the order number that sorts last as text. *)
Definition order_findFirst_desc (w : World) : option string :=
  fold_left
    (fun best o =>
       match best with
       | None => Some (orderNumber o)
       | Some b => if String.ltb b (orderNumber o) then Some (orderNumber o) else Some b
       end)
    (orders w) None.

(** [generateOrderNumber(lastOrder?.orderNumber || null)] *)
Definition nextOrderNumber (year : N) (w : World) : string :=
  generateOrderNumber year (Js.orNull (order_findFirst_desc w)).

(** The order numbers of a year one after the other: each is generated from
    the one before, the first from none. *)
Fixpoint issued (year : N) (k : nat) : option string :=
  match k with
  | O => None
  | S k' => Some (generateOrderNumber year (issued year k'))
  end.

End OrdersRoute.

(* ===================================================================== *)
(** ** How a branch filter selects *)
(* ===================================================================== *)

Module Selection.
Import Branch.

(** Whether the where clause [{ branchId?: string }] lets a row of branch
    [branch] through: Prisma ignores an absent field and compares a present
    one for equality. *)
Definition admits (f : BranchFilter) (branch : string) : bool :=
  match filterBranchId f with
  | None => true
  | Some b => String.eqb b branch
  end.

End Selection.

(* ===================================================================== *)
(** ** Sums over a report *)
(* ===================================================================== *)

Module Totals.
Import Utils.

(** The sum of a list of amounts. *)
Definition sumQ (l : list Q) : Q := fold_right Qplus 0%Q l.

(** Whether a payment was made from [startDate] to [endDate], both ends
    included. *)
Definition paidWithin (startDate endDate : Date) (p : Payment) : bool :=
  (startDate <=? paymentDate p) && (paymentDate p <=? endDate).



End Totals.

(* ===================================================================== *)
(** ** src/app/api/reports/dashboard/route.ts: what GET computes *)
(* ===================================================================== *)

Module Dashboard.
Import Utils Branch Server Api.

(** [categorized]: the four arrays of upcoming orders. *)
Record Categorized : Set := mkCategorized {
  overdue : list Order;
  due1Day : list Order;
  due3Days : list Order;
  due5Days : list Order
}.

(** The body of [upcomingOrders.forEach((order) => { ... })]. *)
Definition categorizeOrder (now : Date) (categorized : Categorized) (o : Order)
  : Categorized :=
  let days := calculateDaysToDue now (dueDate o) in
  if days <=? 0 then
    mkCategorized (overdue categorized ++ [o]) (due1Day categorized)
                  (due3Days categorized) (due5Days categorized)
  else if days <=? 1 then
    mkCategorized (overdue categorized) (due1Day categorized ++ [o])
                  (due3Days categorized) (due5Days categorized)
  else if days <=? 3 then
    mkCategorized (overdue categorized) (due1Day categorized)
                  (due3Days categorized ++ [o]) (due5Days categorized)
  else if days <=? 5 then
    mkCategorized (overdue categorized) (due1Day categorized)
                  (due3Days categorized) (due5Days categorized ++ [o])
  else categorized.

Definition categorize (now : Date) (upcomingOrders : list Order) : Categorized :=
  fold_left (categorizeOrder now) upcomingOrders (mkCategorized [] [] [] []).

(** [activeOrders.reduce((sum, order) => { const paid = ...; return sum +
    (order.totalAmount - paid); }, 0)], each order with its payments. *)
Definition totalOutstanding (activeOrders : list (Order * list Payment)) : Q :=
  fold_left
    (fun sum entry =>
       let paid := fold_left (fun pSum p => pSum + amount p)%Q (snd entry) 0%Q in
       (sum + (totalAmount (fst entry) - paid))%Q)
    activeOrders 0%Q.

End Dashboard.

(* ===================================================================== *)
(** ** src/app/payments/page.tsx: the dates the report is asked for *)
(* ===================================================================== *)

Module PaymentsPage.
Import Utils UtilsRest Server Api.

(** [type DateRange = 'this-week' | 'last-week' | 'custom'] *)
Inductive DateRange : Set := ThisWeek | LastWeek | Custom.

(** A date-only text ['yyyy-MM-dd'] is held as the count of the day it
    names.  [new Date(text)] reads it as midnight UTC, which is midnight on
    the clock of the shop (GMT). *)
Definition dateOfText (day : Z) : Date := day * msPerDay.

(** The [startDate] and [endDate] parameters [fetchReport] sends: the two
    dates formatted ['yyyy-MM-dd'].  The custom dates come from date inputs;
    nothing is sent while one of them is empty. *)
Definition requestedRange (range : DateRange) (now : Date)
  (customStart customEnd : option Z) : option (Z * Z) :=
  match range with
  | ThisWeek =>
      let week := getCurrentWeek now in
      Some (WeeklyPayments.format_yyyyMMdd (fst week),
            WeeklyPayments.format_yyyyMMdd (snd week))
  | LastWeek =>
      let week := getLastWeek now in
      Some (WeeklyPayments.format_yyyyMMdd (fst week),
            WeeklyPayments.format_yyyyMMdd (snd week))
  | Custom =>
      match customStart, customEnd with
      | Some s, Some e =>
          Some (WeeklyPayments.format_yyyyMMdd (dateOfText s),
                WeeklyPayments.format_yyyyMMdd (dateOfText e))
      | _, _ => None
      end
  end.

(** [fetchReport()]: the request and what the handler makes of it. *)
Definition fetchReport (range : DateRange) (now : Date)
  (customStart customEnd : option Z) : option (M Response) :=
  match requestedRange range now customStart customEnd with
  | Some (s, e) =>
      Some (WeeklyPayments.GET (Some (dateOfText s)) (Some (dateOfText e)))
  | None => None
  end.

End PaymentsPage.

(* ===================================================================== *)
(** ** The activity log queries and their route *)
(* ===================================================================== *)

(** *** src/lib/activity-log.ts, the queries, and
        src/app/api/activity-logs/route.ts *)

Module ActivityLogs.
Import Utils Branch Server.
Local Open Scope server_scope.

(** A stored row of [ActivityLog]: what [logActivity] handed over, with the
    [createdAt] column the queries filter and sort on.  The branch name that
    [include] joins to a row is left out. *)
Record StoredLog : Set := mkStored { stored : ActivityLog; createdAt : Date }.

Definition ActivityAction_eqb (a b : ActivityAction) : bool :=
  match a, b with
  | CREATE, CREATE | UPDATE, UPDATE | DELETE, DELETE => true
  | _, _ => false
  end.

Definition ActivityEntity_eqb (a b : ActivityEntity) : bool :=
  match a, b with
  | ORDER, ORDER | CUSTOMER, CUSTOMER | PAYMENT, PAYMENT | USER, USER => true
  | _, _ => false
  end.

(** The [filters] of [getActivityLogs].  [limit] is a JavaScript number that
    [parseInt] gave: an integer, or [NaN], held as [None] like a missing one
    (both are falsy). *)
Record Filters : Set := mkFilters {
  ofBranchId : option string;
  ofUserId : option string;
  ofEntity : option ActivityEntity;
  ofAction : option ActivityAction;
  fromDate : option Date;
  toDate : option Date;
  limit : option Z
}.

(** The [where] that [getActivityLogs] builds: a filter is applied when its
    value is truthy. *)
Definition matchesFilters (filters : Filters) (l : StoredLog) : bool :=
  match Js.orNull (ofBranchId filters) with
  | Some b => String.eqb (logBranchId (stored l)) b
  | None => true
  end
  && match Js.orNull (ofUserId filters) with
     | Some u => String.eqb (logUserId (stored l)) u
     | None => true
     end
  && match ofEntity filters with
     | Some e => ActivityEntity_eqb (logEntity (stored l)) e
     | None => true
     end
  && match ofAction filters with
     | Some a => ActivityAction_eqb (logAction (stored l)) a
     | None => true
     end
  && match fromDate filters with
     | Some d => d <=? createdAt l
     | None => true
     end
  && match toDate filters with
     | Some d => createdAt l <=? d
     | None => true
     end.

(** [orderBy], as a stable insertion sort. *)
Fixpoint insertOn {A : Type} (before : A -> A -> bool) (x : A) (l : list A)
  : list A :=
  match l with
  | [] => [x]
  | y :: rest => if before x y then x :: y :: rest
                 else y :: insertOn before x rest
  end.

Definition sortOn {A : Type} (before : A -> A -> bool) (l : list A) : list A :=
  fold_right (insertOn before) [] l.

Definition newestFirst (a b : StoredLog) : bool := createdAt b <=? createdAt a.

(** Prisma's [take]: the first [n] rows, or the last [-n] for a negative
    [n]. *)
Definition take {A : Type} (n : Z) (l : list A) : list A :=
  if 0 <=? n then firstn (Z.to_nat n) l
  else skipn (List.length l - Z.to_nat (- n)) l.

(** [filters?.limit || 100] *)
Definition limitOr100 (limit : option Z) : Z :=
  match limit with
  | Some n => if n =? 0 then 100 else n
  | None => 100
  end.

(** [getActivityLogs(filters)] over the rows of the table *)
Definition getActivityLogs (table : list StoredLog) (filters : Filters)
  : M (list StoredLog) :=
  ret (take (limitOr100 (limit filters))
            (sortOn newestFirst (filter (matchesFilters filters) table))).

(** [groupBy] with [_count: true]: one group for each key that occurs, with
    the number of its rows. *)
Fixpoint tally {K : Type} (eqb : K -> K -> bool) (acc : list (K * nat)) (k : K)
  : list (K * nat) :=
  match acc with
  | [] => [(k, 1%nat)]
  | (k', c) :: rest =>
      if eqb k' k then (k', S c) :: rest else (k', c) :: tally eqb rest k
  end.

Definition groupCount {K : Type} (eqb : K -> K -> bool) (keys : list K)
  : list (K * nat) :=
  fold_left (tally eqb) keys [].

(** The count of the group of [k], if it has one. *)
Fixpoint groupOf {K : Type} (eqb : K -> K -> bool) (acc : list (K * nat)) (k : K)
  : option nat :=
  match acc with
  | [] => None
  | (k', c) :: rest => if eqb k' k then Some c else groupOf eqb rest k
  end.

Record UserSummary : Set := mkUserSummary {
  userTotalActivities : nat;
  userRecentActivities : nat;
  activityByType : list (ActivityEntity * nat)
}.

Record BranchSummary : Set := mkBranchSummary {
  totalActivities : nat;
  recentActivities : nat;
  topUsers : list ((string * string) * nat)
}.

Definition byUser (userId : string) (l : StoredLog) : bool :=
  String.eqb (logUserId (stored l)) userId.

Definition byBranch (branchId : string) (l : StoredLog) : bool :=
  String.eqb (logBranchId (stored l)) branchId.

(** [createdAt: { gte: new Date(Date.now() - span) }] *)
Definition since (now span : Z) (l : StoredLog) : bool :=
  now - span <=? createdAt l.

(** [getUserActivitySummary(userId)] *)
Definition getUserActivitySummary (table : list StoredLog) (userId : string)
  : M UserSummary :=
  fun w =>
    let mine := filter (byUser userId) table in
    (Returned
       (mkUserSummary
          (List.length mine)
          (List.length (filter (since (clock w) (7 * 24 * 60 * 60 * 1000)) mine))
          (groupCount ActivityEntity_eqb (map (fun l => logEntity (stored l)) mine))),
     w).

Definition sameUser (a b : string * string) : bool :=
  String.eqb (fst a) (fst b) && String.eqb (snd a) (snd b).

Definition mostActiveFirst (a b : (string * string) * nat) : bool :=
  (snd b <=? snd a)%nat.

(** [getBranchActivitySummary(branchId)] *)
Definition getBranchActivitySummary (table : list StoredLog) (branchId : string)
  : M BranchSummary :=
  fun w =>
    let here := filter (byBranch branchId) table in
    (Returned
       (mkBranchSummary
          (List.length here)
          (List.length (filter (since (clock w) (24 * 60 * 60 * 1000)) here))
          (take 5
             (sortOn mostActiveFirst
                (groupCount sameUser
                   (map (fun l => (logUserId (stored l), logUserName (stored l)))
                        here))))),
     w).

(** The query string of [GET /api/activity-logs].  [entity] and [action] are
    held as the value they name and a date as the [Date] it parses to. *)
Record LogQuery : Set := mkLogQuery {
  queryBranchId : option string;
  queryUserId : option string;
  queryEntity : option ActivityEntity;
  queryAction : option ActivityAction;
  queryStartDate : option Date;
  queryEndDate : option Date;
  queryLimit : option string;
  querySummary : option string
}.

Inductive LogsBody : Set :=
| LogsError (error : string)
| Activities (rows : list StoredLog)
| UserSummaryBody (summary : UserSummary)
| BranchSummaryBody (summary : BranchSummary).

Record LogsResponse : Set := mkLogsResponse { logsBody : LogsBody; logsStatus : nat }.

Definition logsJson (b : LogsBody) (st : nat) : M LogsResponse :=
  ret (mkLogsResponse b st).

(** [summary === kind && id]: the id, when the summary of that kind is asked
    for it. *)
Definition summaryOf (kind : string) (summary id : option string) : option string :=
  match summary with
  | Some s => if String.eqb s kind then Js.orNull id else None
  | None => None
  end.

(** [limit ? parseInt(limit) : undefined] *)
Definition limitOf (limit : option string) : option Z :=
  match Js.orNull limit with
  | Some text => Js.parseInt text
  | None => None
  end.

(** [GET /api/activity-logs] *)
Definition GET (table : list StoredLog) (q : LogQuery) : M LogsResponse :=
  tryCatch
    (user <- requireAuth ;;
     match summaryOf "branch" (querySummary q) (queryBranchId q) with
     | Some b =>
         branchSummary <- getBranchActivitySummary table b ;;
         logsJson (BranchSummaryBody branchSummary) 200
     | None =>
     match summaryOf "user" (querySummary q) (queryUserId q) with
     | Some u =>
         userSummary <- getUserActivitySummary table u ;;
         logsJson (UserSummaryBody userSummary) 200
     | None =>
         let listOf filterBranchId :=
           activities <- getActivityLogs table
                           (mkFilters (Js.orNull filterBranchId)
                              (Js.orNull (queryUserId q))
                              (queryEntity q) (queryAction q)
                              (queryStartDate q) (queryEndDate q)
                              (limitOf (queryLimit q))) ;;
           logsJson (Activities activities) 200 in
         if negb (String.eqb (role user) "ADMIN") then
           match Js.orNull (Branch.branchId user) with
           | None => logsJson (LogsError "User not assigned to a branch") 400
           | Some b => listOf (Some b)
           end
         else listOf (queryBranchId q)
     end
     end)
    (fun error =>
       console_error "Error fetching activity logs:" error ;;;
       logsJson (LogsError (Payments.messageOr error "Failed to fetch activity logs"))
                (Payments.errorStatus error)).

(** Two rows of the log, one of each branch, and a query for the second
    branch with a limit that is not a number. *)
Definition accraLog : StoredLog :=
  mkStored (mkActivityLog "u1" "Ama" "B1" CREATE PAYMENT None [] None) 5.
Definition koforiduaLog : StoredLog :=
  mkStored (mkActivityLog "u2" "Kofi" "B2" CREATE PAYMENT None [] None) 6.
Definition koforiduaQuery : LogQuery :=
  mkLogQuery (Some "B2") None None None None None (Some "abc") None.
Definition koforiduaSummary : LogQuery :=
  mkLogQuery (Some "B2") None None None None None None (Some "branch").

End ActivityLogs.

(* ===================================================================== *)
(** ** src/lib/notifications.ts: the SMS reminder *)
(* ===================================================================== *)

Module Notifications.
Import Utils Branch Server.
Local Open Scope server_scope.

(** The variables of [process.env] that [sendSMSReminder] reads. *)
Record Env : Set := mkEnv {
  ENABLE_SMS_NOTIFICATIONS : option string;
  TWILIO_ACCOUNT_SID : option string;
  TWILIO_AUTH_TOKEN : option string;
  TWILIO_PHONE_NUMBER : option string
}.

(** The argument of [client.messages.create]. *)
Record TwilioMessage : Set := mkMessage {
  messageBody : string;
  messageFrom : option string;
  messageTo : string
}.

(** [console.log(line)] *)
Definition console_log (line : string) : M unit :=
  fun w => (Returned tt, withConsole w (console w ++ [line])).

(** [value === text] for a variable of the environment *)
Definition isText (value : option string) (text : string) : bool :=
  match value with
  | Some v => String.eqb v text
  | None => false
  end.

(** The text [sendSMSReminder] chooses, or nothing for a safe order. *)
Definition reminderText (urgency : DueDateUrgency) (days : Z)
  (customerName orderNumber : string) : option string :=
  match urgency with
  | Overdue =>
      Some ("Hi " ++ customerName ++ ", your order " ++ orderNumber
            ++ " is OVERDUE. Please collect it from Smart Trendz. Thank you!")
  | Warning1 =>
      Some ("Hi " ++ customerName ++ ", reminder: Order " ++ orderNumber
            ++ " is due TOMORROW at Smart Trendz. Thank you!")
  | Warning3 =>
      Some ("Hi " ++ customerName ++ ", your order " ++ orderNumber
            ++ " will be ready in " ++ Js.intToString days
            ++ " days at Smart Trendz.")
  | Warning5 =>
      Some ("Hi " ++ customerName ++ ", reminder: Order " ++ orderNumber
            ++ " is due in " ++ Js.intToString days ++ " days. Smart Trendz.")
  | Safe => None
  end.

Section Twilio.

Variable env : Env.

(** [(await import('twilio')).default(sid, token)]: the client, whose
    [messages.create] is all that is used of it.  Loading the library,
    making the client and sending may each fail. *)
Variable twilio : string -> string -> M (TwilioMessage -> M unit).

(** [sendSMSReminder(phoneNumber, orderNumber, dueDate, customerName)] *)
Definition sendSMSReminder (phoneNumber orderNumber : string) (dueDate : Date)
  (customerName : string) : M bool :=
  if negb (isText (ENABLE_SMS_NOTIFICATIONS env) "true") then
    console_log "SMS notifications disabled" ;;; ret false
  else
    match Js.orNull (TWILIO_ACCOUNT_SID env), Js.orNull (TWILIO_AUTH_TOKEN env) with
    | Some sid, Some token =>
        tryCatch
          (client <- twilio sid token ;;
           fun w =>
             let days := calculateDaysToDue (clock w) dueDate in
             let urgency := getDueDateUrgency (clock w) dueDate in
             match reminderText urgency days customerName orderNumber with
             | None => ret false w
             | Some message =>
                 (client (mkMessage message (TWILIO_PHONE_NUMBER env) phoneNumber) ;;;
                  console_log ("SMS sent to " ++ phoneNumber ++ " for order "
                               ++ orderNumber) ;;;
                  ret true) w
             end)
          (fun error => console_error "Error sending SMS:" error ;;; ret false)
    | _, _ => console_log "Twilio credentials not configured" ;;; ret false
    end.

End Twilio.

End Notifications.

(* ===================================================================== *)
(** * Properties *)
(* ===================================================================== *)

Import Utils Branch Server Api Vocabulary.

(** ** Urgency tiers *)

Lemma setHours0_shift (t d : Z) :
  setHours0 (t + d * msPerDay) = setHours0 t + d * msPerDay.
Proof.
  unfold setHours0. rewrite Z.mod_add by (unfold msPerDay; lia). lia.
Qed.

(** Every integer is the day difference of some due date. *)
Lemma calculateDaysToDue_shift (now d : Z) :
  calculateDaysToDue now (now + d * msPerDay) = d.
Proof.
  unfold calculateDaysToDue, differenceInDays.
  rewrite setHours0_shift.
  replace (setHours0 now + d * msPerDay - setHours0 now) with (d * msPerDay) by lia.
  apply Z.quot_mul. unfold msPerDay; lia.
Qed.

Ltac tier_cases :=
  repeat match goal with
         | |- context [?a <=? ?b] => destruct (Z.leb_spec a b)
         end.

(** C2: the urgency of a due date depends on the integer day difference
    alone, every integer occurs as one, and the tiers cut the integers at
    [<= 0] (overdue), [1] (warning-1), [2..3] (warning-3), [4..5] (warning-5)
    and [>= 6] (safe), without overlap. *)
Theorem urgency_partition :
  forall d : Z,
    (exists now dueDate, calculateDaysToDue now dueDate = d) /\
    (forall now dueDate,
        calculateDaysToDue now dueDate = d ->
        let u := getDueDateUrgency now dueDate in
        (u = Overdue <-> d <= 0) /\
        (u = Warning1 <-> d = 1) /\
        (u = Warning3 <-> 2 <= d <= 3) /\
        (u = Warning5 <-> 4 <= d <= 5) /\
        (u = Safe <-> 6 <= d)).
Proof.
  intro d. split.
  - exists 0, (0 + d * msPerDay). apply calculateDaysToDue_shift.
  - intros now dueDate Hd. unfold getDueDateUrgency. rewrite Hd. cbv zeta.
    tier_cases; repeat split; intros; try discriminate; try reflexivity; lia.
Qed.

Example urgency_at_3 now : getDueDateUrgency now (now + 3 * msPerDay) = Warning3.
Proof.
  unfold getDueDateUrgency. rewrite calculateDaysToDue_shift. reflexivity.
Qed.

Example urgency_at_5 now : getDueDateUrgency now (now + 5 * msPerDay) = Warning5.
Proof.
  unfold getDueDateUrgency. rewrite calculateDaysToDue_shift. reflexivity.
Qed.

Example urgency_at_6 now : getDueDateUrgency now (now + 6 * msPerDay) = Safe.
Proof.
  unfold getDueDateUrgency. rewrite calculateDaysToDue_shift. reflexivity.
Qed.

(** ** Urgency labels *)

Lemma DueDateUrgency_eqb_eq (a b : DueDateUrgency) :
  DueDateUrgency_eqb a b = true <-> a = b.
Proof. destruct a, b; simpl; split; congruence. Qed.

Lemma getDueDateUrgency_overdue (now dueDate : Date) :
  getDueDateUrgency now dueDate = Overdue <-> calculateDaysToDue now dueDate <= 0.
Proof.
  unfold getDueDateUrgency. cbv zeta.
  tier_cases; split; intros; try discriminate; try reflexivity; lia.
Qed.

Lemma tierOf_overdue (d : Z) : tierOf d = Overdue <-> d <= 0.
Proof.
  unfold tierOf. rewrite getDueDateUrgency_overdue.
  change (d * msPerDay) with (0 + d * msPerDay).
  rewrite (calculateDaysToDue_shift 0 d). reflexivity.
Qed.

(** C8, as the code has it: the label is "Due Today" for overdue and 0,
    "<n> days overdue" with n the absolute value for overdue and any other
    day count, "Due Tomorrow" for a tier other than overdue and 1, and
    "<daysToDue> days left" otherwise; whenever the urgency is the tier of the
    day count, this is the label the specification words. *)
Theorem urgency_label_cases :
  forall (urgency : DueDateUrgency) (days : Z),
    (urgency = Overdue -> days = 0 -> getUrgencyLabel urgency days = "Due Today") /\
    (urgency = Overdue -> days <> 0 ->
       getUrgencyLabel urgency days = Js.intToString (Z.abs days) ++ " days overdue") /\
    (urgency <> Overdue -> days = 1 -> getUrgencyLabel urgency days = "Due Tomorrow") /\
    (urgency <> Overdue -> days <> 1 ->
       getUrgencyLabel urgency days = Js.intToString days ++ " days left") /\
    (urgency = tierOf days -> getUrgencyLabel urgency days = urgencyLabel_spec urgency days).
Proof.
  intros urgency days. unfold getUrgencyLabel, urgencyLabel_spec.
  repeat split.
  - intros -> ->. reflexivity.
  - intros -> Hd. simpl. destruct (Z.eqb_spec days 0); [contradiction | reflexivity].
  - intros Hu ->. destruct urgency; try reflexivity. contradiction.
  - intros Hu Hd. destruct (Z.eqb_spec days 1); [contradiction |].
    destruct urgency; try reflexivity. contradiction.
  - intros Hu.
    destruct (DueDateUrgency_eqb urgency Overdue) eqn:E; simpl; [| reflexivity].
    apply DueDateUrgency_eqb_eq in E. rewrite E in Hu. symmetry in Hu.
    apply tierOf_overdue in Hu.
    destruct (Z.eqb_spec days 0); [reflexivity |].
    destruct (Z.ltb_spec days 0); [reflexivity | lia].
Qed.

(** C8, as stated, fails: with urgency overdue and one day to go the code
    answers "1 days overdue", where the specification's cases give
    "Due Tomorrow". *)
Lemma urgency_label_overdue_one :
  getUrgencyLabel Overdue 1 = "1 days overdue" /\
  urgencyLabel_spec Overdue 1 = "Due Tomorrow" /\
  getUrgencyLabel Overdue 1 <> urgencyLabel_spec Overdue 1.
Proof. repeat split. discriminate. Qed.

Example label_due_today : getUrgencyLabel Overdue 0 = "Due Today".
Proof. reflexivity. Qed.
Example label_two_days_overdue : getUrgencyLabel Overdue (-2) = "2 days overdue".
Proof. reflexivity. Qed.
Example label_due_tomorrow : getUrgencyLabel Warning1 1 = "Due Tomorrow".
Proof. reflexivity. Qed.
Example label_days_left : getUrgencyLabel Warning3 3 = "3 days left".
Proof. reflexivity. Qed.

(** ** Branch resolution *)

(** C6: an ADMIN gets the requested branch when one is given and their own
    (possibly none) otherwise; anyone else gets their own branch whatever is
    requested, so STAFF of B1 asking for B2 gets B1. *)
Theorem resolveBranchId_cases :
  forall (user : SessionUser) (requested : option string),
    (role user = "ADMIN" ->
       resolveBranchId user requested =
       match requested with Some b => Some b | None => Branch.branchId user end) /\
    (role user <> "ADMIN" ->
       resolveBranchId user requested = Branch.branchId user) /\
    (forall i n e bn,
        resolveBranchId (mkUser i n e "STAFF" (Some "B1") bn) (Some "B2") = Some "B1").
Proof.
  intros user requested. unfold resolveBranchId, isAdmin. repeat split.
  - intros ->. reflexivity.
  - intros Hr. destruct (String.eqb_spec (role user) "ADMIN"); [contradiction | reflexivity].
Qed.

Example admin_without_branch i n e :
  resolveBranchId (mkUser i n e "ADMIN" None None) None = None.
Proof. reflexivity. Qed.

(** The rest of the policy: an ADMIN has access everywhere and gets the empty
    filter; anyone else has access to their own branch only and gets a filter
    on it, or an error when they have no branch. *)
Lemma hasAccessToBranch_cases (user : SessionUser) (target : string) :
  (role user = "ADMIN" -> hasAccessToBranch user target = true) /\
  (role user <> "ADMIN" ->
     (hasAccessToBranch user target = true <-> Branch.branchId user = Some target)).
Proof.
  unfold hasAccessToBranch, isAdmin. split.
  - intros ->. reflexivity.
  - intros Hr. destruct (String.eqb_spec (role user) "ADMIN"); [contradiction |].
    destruct (Branch.branchId user) as [b |]; [| split; discriminate].
    split.
    + intros H. apply String.eqb_eq in H. now subst.
    + intros [= ->]. apply String.eqb_refl.
Qed.

Lemma buildBranchFilter_cases (user : SessionUser) :
  (role user = "ADMIN" -> buildBranchFilter user = Returned (mkFilter None)) /\
  (role user <> "ADMIN" ->
     forall b, Branch.branchId user = Some b -> b <> "" ->
               buildBranchFilter user = Returned (mkFilter (Some b))) /\
  (role user <> "ADMIN" -> Js.orNull (Branch.branchId user) = None ->
     buildBranchFilter user = Thrown "User not assigned to a branch").
Proof.
  unfold buildBranchFilter, isAdmin. repeat split.
  - intros ->. reflexivity.
  - intros Hr b Hb Hne. rewrite Hb.
    destruct (String.eqb_spec (role user) "ADMIN"); [contradiction |].
    destruct (String.eqb_spec b ""); [contradiction | reflexivity].
  - intros Hr Hnone.
    destruct (String.eqb_spec (role user) "ADMIN"); [contradiction |].
    unfold Js.orNull in Hnone.
    destruct (Branch.branchId user) as [b |]; [| reflexivity].
    destruct (String.eqb b ""); [reflexivity | discriminate].
Qed.

(** ** Order numbers *)

Lemma startsWith_append (p s : string) : Js.startsWith (p ++ s) p = true.
Proof.
  induction p as [| c p IH]; simpl; [reflexivity |].
  rewrite Ascii.eqb_refl. exact IH.
Qed.

Lemma split_no_separator (sep : ascii) (a : string) :
  hasChar sep a = false -> Js.split sep a = [a].
Proof.
  induction a as [| c a IH]; simpl; intros H; [reflexivity |].
  apply orb_false_iff in H. destruct H as [Hc Ha].
  rewrite Hc, (IH Ha). reflexivity.
Qed.

Lemma split_at_separator (sep : ascii) (a b : string) :
  hasChar sep a = false ->
  Js.split sep (a ++ String sep b) = a :: Js.split sep b.
Proof.
  induction a as [| c a IH]; simpl; intros H.
  - rewrite Ascii.eqb_refl. reflexivity.
  - apply orb_false_iff in H. destruct H as [Hc Ha].
    rewrite Hc, (IH Ha). reflexivity.
Qed.

(** What being a decimal digit rules out for a character. *)
Lemma decimal_digit_char (c : ascii) (d : Z) :
  Js.digitIn 10 c = Some d ->
  Js.isWhiteSpace c = false /\ Ascii.eqb c "-" = false /\
  Ascii.eqb c "+" = false /\ Ascii.eqb "x" c = false /\ Ascii.eqb "X" c = false.
Proof.
  destruct c as [[] [] [] [] [] [] [] []]; vm_compute; intros H;
    try discriminate H; repeat split.
Qed.

Lemma allDecimal_no_hyphen (s : string) :
  allDecimal s = true -> hasChar "-" s = false.
Proof.
  induction s as [| c s IH]; simpl; [reflexivity |].
  destruct (Js.digitIn 10 c) as [d |] eqn:E; [| discriminate].
  intros H. destruct (decimal_digit_char c d E) as (_ & Hm & _).
  rewrite Hm. simpl. auto.
Qed.

Lemma string_of_uint_decimal (u : Decimal.uint) :
  allDecimal (NilEmpty.string_of_uint u) = true.
Proof. induction u; simpl; auto. Qed.

Lemma year_text_decimal (year : N) :
  allDecimal (Js.intToString (Z.of_N year)) = true.
Proof.
  unfold Js.intToString. destruct year as [| p]; [reflexivity |].
  simpl. unfold NilZero.string_of_uint.
  destruct (Pos.to_uint p) eqn:E; try (rewrite <- E; apply string_of_uint_decimal).
  reflexivity.
Qed.

Lemma scanSign_unsigned (c : ascii) (s : string) :
  Ascii.eqb c "-" = false -> Ascii.eqb c "+" = false ->
  Js.scanSign (String c s) = (false, String c s).
Proof.
  destruct c as [[] [] [] [] [] [] [] []]; simpl; intros Hm Hp;
    try discriminate; reflexivity.
Qed.

Lemma scanDigits_count (radix acc : Z) (n : nat) (s : string) :
  (n <= snd (fst (Js.scanDigits radix acc n s)))%nat.
Proof.
  revert acc n. induction s as [| c s IH]; intros acc n; simpl; [lia |].
  destruct (Js.digitIn radix c); simpl; [| lia].
  specialize (IH (acc * radix + z) (S n)). lia.
Qed.

Lemma startsWith_0x_decimal (marker : ascii) (s : string) :
  (forall c d, Js.digitIn 10 c = Some d -> Ascii.eqb marker c = false) ->
  allDecimal s = true ->
  Js.startsWith s (String "0" (String marker EmptyString)) = false.
Proof.
  intros Hmarker Hs. destruct s as [| c0 [| c1 s]]; simpl; try reflexivity.
  - apply andb_false_r.
  - simpl in Hs. destruct (Js.digitIn 10 c0); [| discriminate].
    destruct (Js.digitIn 10 c1) as [d1 |] eqn:E1; [| discriminate].
    rewrite (Hmarker c1 d1 E1). simpl. apply andb_false_r.
Qed.

(** [parseInt] of a run of decimal digits is the number they denote. *)
Lemma parseInt_decimal (ds : string) :
  ds <> EmptyString -> allDecimal ds = true ->
  Js.parseInt ds = Some (decimalValue ds).
Proof.
  intros Hne Hds. unfold Js.parseInt, decimalValue.
  destruct ds as [| c rest]; [contradiction |].
  pose proof Hds as Hall. simpl in Hds.
  destruct (Js.digitIn 10 c) as [d |] eqn:Ec; [| discriminate].
  destruct (decimal_digit_char c d Ec) as (Hws & Hm & Hp & _ & _).
  assert (Htrim : Js.trimStart (String c rest) = String c rest)
    by (simpl; rewrite Hws; reflexivity).
  rewrite Htrim, (scanSign_unsigned c rest Hm Hp).
  rewrite (startsWith_0x_decimal "x"), (startsWith_0x_decimal "X"); trivial;
    try (intros c' d' H'; apply (decimal_digit_char c' d' H')).
  cbn [orb].
  simpl Js.scanDigits. rewrite Ec.
  pose proof (scanDigits_count 10 d 1 rest) as Hc.
  destruct (Js.scanDigits 10 d 1 rest) as [[v k] r].
  simpl in Hc. destruct k; [lia | reflexivity].
Qed.

Lemma append_assoc (a b c : string) : (a ++ b) ++ c = a ++ (b ++ c).
Proof. induction a as [| x a IH]; simpl; [reflexivity | now rewrite IH]. Qed.

(** The generator on a last number of the current year: prefix, then digits. *)
Lemma generateOrderNumber_next (year : N) (ds : string) :
  ds <> EmptyString -> allDecimal ds = true ->
  generateOrderNumber year (Some (orderPrefix year ++ ds)) =
  orderPrefix year ++ Js.padStart 4 "0" (Js.intToString (decimalValue ds + 1)).
Proof.
  intros Hne Hds. unfold generateOrderNumber.
  rewrite startsWith_append.
  assert (Hshape : orderPrefix year ++ ds =
                   String "T" (String "-"
                     (Js.intToString (Z.of_N year) ++ String "-" ds))).
  { unfold orderPrefix. simpl. rewrite append_assoc. reflexivity. }
  rewrite Hshape. cbn [String.eqb orb negb].
  replace (String "T" (String "-" (Js.intToString (Z.of_N year) ++ String "-" ds)))
    with ("T" ++ String "-" (Js.intToString (Z.of_N year) ++ String "-" ds))
    by reflexivity.
  rewrite split_at_separator by reflexivity.
  rewrite split_at_separator by (apply allDecimal_no_hyphen, year_text_decimal).
  rewrite split_no_separator by (apply allDecimal_no_hyphen, Hds).
  cbn [nth_error]. rewrite (parseInt_decimal ds Hne Hds). reflexivity.
Qed.

Lemma digitIn_digitChar (d : Z) :
  0 <= d <= 9 -> Js.digitIn 10 (digitChar d) = Some d.
Proof.
  intros H.
  assert (d = 0 \/ d = 1 \/ d = 2 \/ d = 3 \/ d = 4 \/
          d = 5 \/ d = 6 \/ d = 7 \/ d = 8 \/ d = 9) as Hd by lia.
  repeat (destruct Hd as [-> | Hd]; [reflexivity |]). subst. reflexivity.
Qed.

Lemma fourDigits_value (a b c d : Z) :
  0 <= a <= 9 -> 0 <= b <= 9 -> 0 <= c <= 9 -> 0 <= d <= 9 ->
  allDecimal (fourDigits a b c d) = true /\
  decimalValue (fourDigits a b c d) = 1000 * a + 100 * b + 10 * c + d.
Proof.
  intros Ha Hb Hc Hd. unfold decimalValue, fourDigits.
  cbn [allDecimal Js.scanDigits].
  rewrite !digitIn_digitChar by assumption.
  cbn [allDecimal Js.scanDigits fst]. split; [reflexivity | lia].
Qed.

(** C5: without a last number, or with one that does not start with
    "T-<year>-", the next order number is "T-<year>-0001"; after
    "T-<year>-" followed by four digits it is the prefix followed by the
    number those digits denote plus one, padded with zeros to four digits. *)
Theorem next_order_number :
  forall year : N,
    orderPrefix year = "T-" ++ Js.intToString (Z.of_N year) ++ "-" /\
    generateOrderNumber year None = orderPrefix year ++ "0001" /\
    (forall last,
        Js.startsWith last (orderPrefix year) = false ->
        generateOrderNumber year (Some last) = orderPrefix year ++ "0001") /\
    (forall a b c d,
        0 <= a <= 9 -> 0 <= b <= 9 -> 0 <= c <= 9 -> 0 <= d <= 9 ->
        generateOrderNumber year (Some (orderPrefix year ++ fourDigits a b c d)) =
        orderPrefix year ++
        Js.padStart 4 "0" (Js.intToString (1000 * a + 100 * b + 10 * c + d + 1))) /\
    generateOrderNumber 2025 (Some "T-2025-0042") = "T-2025-0043" /\
    generateOrderNumber 2025 (Some "T-2024-9999") = "T-2025-0001".
Proof.
  intro year. repeat split.
  - intros last Hlast. unfold generateOrderNumber. rewrite Hlast. simpl.
    rewrite orb_true_r. reflexivity.
  - intros a b c d Ha Hb Hc Hd.
    destruct (fourDigits_value a b c d Ha Hb Hc Hd) as [Hall Hval].
    rewrite generateOrderNumber_next by (trivial; discriminate).
    rewrite Hval. reflexivity.
Qed.

(** C10: after "T-<year>-9999" comes "T-<year>-10000", five digits wide:
    padding to four digits never cuts a longer number. *)
Theorem order_number_after_9999 :
  forall year : N,
    generateOrderNumber year (Some (orderPrefix year ++ "9999")) =
    orderPrefix year ++ "10000" /\
    generateOrderNumber 2025 (Some "T-2025-9999") = "T-2025-10000".
Proof.
  intro year. split; [| reflexivity].
  rewrite generateOrderNumber_next by (try reflexivity; discriminate).
  reflexivity.
Qed.

(** ** The weekly report *)

Lemma dayIndex_of_day (start : Date) (k : nat) :
  dayIndex (setHours0 start + Z.of_nat k * msPerDay) = dayIndex start + Z.of_nat k.
Proof.
  unfold dayIndex, setHours0.
  rewrite Z.div_add by (unfold msPerDay; lia).
  pose proof (Z.div_mod start msPerDay ltac:(unfold msPerDay; lia)) as Hdm.
  replace (start - start mod msPerDay) with (start / msPerDay * msPerDay) by lia.
  rewrite Z.div_mul by (unfold msPerDay; lia). reflexivity.
Qed.

Lemma dayIndex_monotone (a b : Date) : a <= b -> dayIndex a <= dayIndex b.
Proof. intros H. apply Z.div_le_mono; [unfold msPerDay; lia | exact H]. Qed.

Lemma filter_none {A : Type} (f : A -> bool) (l : list A) :
  (forall x, In x l -> f x = false) -> filter f l = [].
Proof.
  induction l as [| x l IH]; simpl; intros H; [reflexivity |].
  rewrite (H x (or_introl eq_refl)). apply IH. intros y Hy. apply H. now right.
Qed.

(** C7: over a range that does not end before it starts the report has one
    bucket per calendar day from the day of [startDate] to the day of
    [endDate], in order (seven for a range of seven days); a bucket holds the
    payments whose payment date falls on its day, whatever the time of day,
    with their number and their sum, and a day without payments has an empty
    bucket with count 0 and total 0.  The handler answers with the report of
    the payments it fetched. *)
Theorem weekly_day_buckets :
  forall (rows : list (Payment * option Order)) (startDate endDate : Date),
    startDate <= endDate ->
    exists report,
      WeeklyPayments.aggregate rows startDate endDate = Returned report /\
      map date (byDay report) =
        map (fun k => dayIndex startDate + Z.of_nat k)
            (seq 0 (Z.to_nat (dayIndex endDate - dayIndex startDate + 1))) /\
      List.length (byDay report) =
        Z.to_nat (dayIndex endDate - dayIndex startDate + 1) /\
      (dayIndex endDate = dayIndex startDate + 6 ->
       List.length (byDay report) = 7%nat) /\
      (forall bucket,
          In bucket (byDay report) ->
          dayPayments bucket =
            filter (fun p => dayIndex (paymentDate p) =? date bucket) (map fst rows) /\
          count bucket = List.length (dayPayments bucket) /\
          total bucket = sumAmounts (dayPayments bucket) /\
          ((forall p, In p (map fst rows) -> dayIndex (paymentDate p) <> date bucket) ->
           dayPayments bucket = [] /\ count bucket = 0%nat /\ total bucket = 0%Q)) /\
      (forall w,
          exists fetched fetchedReport,
            fst (payment_findMany
                   (mkWhere None (Some (startDate, endDate)) (mkFilter None)) asc w)
              = Returned fetched /\
            WeeklyPayments.aggregate fetched startDate endDate = Returned fetchedReport /\
            fst (WeeklyPayments.GET (Some startDate) (Some endDate) w)
              = Returned (mkResponse (Weekly fetchedReport) 200)).
Proof.
  intros rows startDate endDate Hrange.
  assert (Hdays : WeeklyPayments.eachDayOfInterval startDate endDate =
                  Returned (map (fun k => setHours0 startDate + Z.of_nat k * msPerDay)
                     (seq 0 (Z.to_nat (dayIndex endDate - dayIndex startDate + 1))))).
  { unfold WeeklyPayments.eachDayOfInterval.
    destruct (Z.ltb_spec endDate startDate); [lia | reflexivity]. }
  assert (Hagg : forall rs, exists r,
             WeeklyPayments.aggregate rs startDate endDate = Returned r /\
             byDay r = map (WeeklyPayments.dayBucket (map fst rs))
                 (map (fun k => setHours0 startDate + Z.of_nat k * msPerDay)
                    (seq 0 (Z.to_nat (dayIndex endDate - dayIndex startDate + 1))))).
  { intros rs. unfold WeeklyPayments.aggregate. rewrite Hdays.
    eexists. split; reflexivity. }
  destruct (Hagg rows) as (report & Hreport & HbyDay).
  exists report. split; [exact Hreport |].
  assert (Hdates : map date (byDay report) =
                   map (fun k => dayIndex startDate + Z.of_nat k)
                     (seq 0 (Z.to_nat (dayIndex endDate - dayIndex startDate + 1)))).
  { rewrite HbyDay, !map_map. apply map_ext. intros k. simpl.
    unfold WeeklyPayments.format_yyyyMMdd. apply dayIndex_of_day. }
  assert (Hlen : List.length (byDay report) =
                 Z.to_nat (dayIndex endDate - dayIndex startDate + 1)).
  { rewrite <- (length_map date), Hdates, length_map, length_seq. reflexivity. }
  assert (Hbucket : forall bucket, In bucket (byDay report) ->
             exists day, bucket = WeeklyPayments.dayBucket (map fst rows) day).
  { intros bucket Hin. rewrite HbyDay in Hin. apply in_map_iff in Hin.
    destruct Hin as (day & <- & _). exists day. reflexivity. }
  split; [exact Hdates |]. split; [exact Hlen |]. split; [| split].
  - intros H7. rewrite Hlen, H7.
    replace (dayIndex startDate + 6 - dayIndex startDate + 1) with 7 by lia.
    reflexivity.
  - intros bucket Hin. destruct (Hbucket bucket Hin) as (day & ->).
    split; [reflexivity |]. split; [reflexivity |]. split; [reflexivity |].
    intros Hnone.
    assert (Hempty : dayPayments (WeeklyPayments.dayBucket (map fst rows) day) = []).
    { simpl. apply filter_none. intros p Hp. apply Z.eqb_neq. apply (Hnone p Hp). }
    split; [exact Hempty |]. simpl in Hempty |- *. rewrite Hempty.
    split; reflexivity.
  - intros w.
    destruct (Hagg (map (fun p => (p, orderOf w p))
                 (sortBy asc (filter
                    (matchesWhere w (mkWhere None (Some (startDate, endDate)) (mkFilter None)))
                    (payments w))))) as (r & Hr & _).
    eexists. exists r. split; [reflexivity |]. split; [exact Hr |].
    unfold WeeklyPayments.GET, tryCatch, bind, payment_findMany. simpl.
    rewrite Hr. reflexivity.
Qed.

(** ** The activity logger *)

Import ActivityLogger.

Section AuditBlind.
Local Open Scope server_scope.

Lemma auditBlind_ret {A : Type} (a : A) : auditBlind (ret a).
Proof. intros w1 w2 H. split; [reflexivity | exact H]. Qed.

Lemma auditBlind_throw {A : Type} (e : string) : auditBlind (@throw A e).
Proof. intros w1 w2 H. split; [reflexivity | exact H]. Qed.

Lemma auditBlind_bind {A B : Type} (m : M A) (k : A -> M B) :
  auditBlind m -> (forall a, auditBlind (k a)) -> auditBlind (bind m k).
Proof.
  intros Hm Hk w1 w2 H. unfold bind.
  destruct (Hm w1 w2 H) as [Hout Hsame].
  destruct (m w1) as [[a1 | e1] w1'], (m w2) as [[a2 | e2] w2'];
    simpl in Hout, Hsame; try discriminate.
  - injection Hout as ->. apply (Hk a2 w1' w2' Hsame).
  - injection Hout as ->. split; [reflexivity | exact Hsame].
Qed.

Lemma auditBlind_tryCatch {A : Type} (m : M A) (h : string -> M A) :
  auditBlind m -> (forall e, auditBlind (h e)) -> auditBlind (tryCatch m h).
Proof.
  intros Hm Hh w1 w2 H. unfold tryCatch.
  destruct (Hm w1 w2 H) as [Hout Hsame].
  destruct (m w1) as [[a1 | e1] w1'], (m w2) as [[a2 | e2] w2'];
    simpl in Hout, Hsame; try discriminate.
  - injection Hout as ->. split; [reflexivity | exact Hsame].
  - injection Hout as ->. apply (Hh e2 w1' w2' Hsame).
Qed.

Lemma auditBlind_console (label e : string) : auditBlind (console_error label e).
Proof. intros w1 w2 H. split; [reflexivity | exact H]. Qed.

Lemma auditBlind_requireAuth : auditBlind requireAuth.
Proof.
  intros w1 w2 H. unfold requireAuth.
  pose proof H as (Ho & Hp & Hs & Hc & Hf & Hb). rewrite Hs.
  destruct (session w2); (split; [reflexivity | exact H]).
Qed.

Lemma auditBlind_findUnique (oid : string) : auditBlind (order_findUnique oid).
Proof.
  intros w1 w2 H. unfold order_findUnique, paymentsOf.
  destruct H as (Ho & Hp & Hs & Hc & Hf & Hb). simpl. rewrite Ho, Hp.
  split; [reflexivity | repeat split; assumption].
Qed.

Lemma auditBlind_clock : auditBlind (fun w => (Returned (clock w), w)).
Proof.
  intros w1 w2 H. pose proof H as (Ho & Hp & Hs & Hc & Hf & Hb). simpl.
  rewrite Hc. split; [reflexivity | exact H].
Qed.

Lemma auditBlind_create (data : PaymentData) : auditBlind (payment_create data).
Proof.
  intros w1 w2 H. pose proof H as (Ho & Hp & Hs & Hc & Hf & Hb).
  unfold payment_create, orderOf, paymentsOf.
  destruct (dataAmount data); try (split; [reflexivity | exact H]).
  simpl. rewrite Ho, Hp.
  destruct (find _ (orders w2)); simpl.
  - split; [reflexivity | repeat split; simpl; assumption].
  - split; [reflexivity | exact H].
Qed.

Lemma auditBlind_sms (n : string) (a : Js.JsNum) (b : Q) :
  auditBlind (sendPaymentConfirmationSMS n a b).
Proof.
  intros w1 w2 H. pose proof H as (Ho & Hp & Hs & Hc & Hf & Hb).
  unfold sendPaymentConfirmationSMS. rewrite Hf.
  destruct (smsFailure w2) eqn:E; simpl.
  - split; [reflexivity | exact H].
  - split; [reflexivity | repeat split; simpl; congruence].
Qed.

(** Whatever the write does, [logActivityWith] returns. *)
Lemma logActivityWith_returns (create : ActivityLog -> M ActivityLog)
  (params : LogActivityParams) (w : World) :
  exists w', logActivityWith create params w = (Returned tt, w').
Proof.
  unfold logActivityWith, tryCatch, bind, ret, console_error.
  destruct (create _ w) as [[a | e] w']; eexists; reflexivity.
Qed.

(** The store's write touches the audit trail only. *)
Lemma auditBlind_logActivity (params : LogActivityParams) :
  auditBlind (logActivity params).
Proof.
  intros w1 w2 H. pose proof H as (Ho & Hp & Hs & Hc & Hf & Hb).
  unfold logActivity, logActivityWith, tryCatch, bind, ret, console_error,
    activityLog_create.
  destruct (auditFailure w1), (auditFailure w2); simpl;
    (split; [reflexivity | repeat split; assumption]).
Qed.

End AuditBlind.

Create HintDb audit.
#[local] Hint Resolve auditBlind_ret auditBlind_throw auditBlind_console
  auditBlind_requireAuth auditBlind_findUnique auditBlind_clock
  auditBlind_create auditBlind_sms auditBlind_logActivity : audit.

Ltac audit_blind :=
  repeat first
    [ solve [auto with audit]
    | apply auditBlind_tryCatch; [| intro]
    | apply auditBlind_bind; [| intro]
    | progress (unfold json)
    | match goal with
      | |- auditBlind (match ?x with _ => _ end) => destruct x
      | |- auditBlind (if ?b then _ else _) => destruct b
      end ].

Lemma auditBlind_POST (req : PaymentRequest) : auditBlind (Payments.POST req).
Proof. unfold Payments.POST. audit_blind. Qed.

(** C9: whatever the underlying write does, [logActivity] returns normally;
    and the payment route answers the same, and leaves the same orders and
    payments, whether or not the audit record can be written. *)
Theorem logActivity_never_throws :
  forall (create : ActivityLog -> M ActivityLog)
         (params : LogActivityParams) (w : World),
    (exists w', logActivityWith create params w = (Returned tt, w')) /\
    (exists w', logActivity params w = (Returned tt, w')) /\
    (forall (req : PaymentRequest) (failure : option string),
        fst (Payments.POST req (withAuditFailure w failure)) =
        fst (Payments.POST req w) /\
        payments (snd (Payments.POST req (withAuditFailure w failure))) =
        payments (snd (Payments.POST req w)) /\
        orders (snd (Payments.POST req (withAuditFailure w failure))) =
        orders (snd (Payments.POST req w))).
Proof.
  intros create params w. split; [apply logActivityWith_returns |].
  split; [apply logActivityWith_returns |].
  intros req failure.
  assert (Hsame : sameBusiness (withAuditFailure w failure) w)
    by (repeat split).
  destruct (auditBlind_POST req _ _ Hsame) as (Hout & Ho & Hp & _).
  repeat split; assumption.
Qed.

(** ** Branch scoping of payment listings *)

Lemma insertBy_In (before : Payment -> Payment -> bool) (p x : Payment)
  (l : list Payment) :
  In x (insertBy before p l) -> x = p \/ In x l.
Proof.
  induction l as [| q l IH]; simpl.
  - intros [<- | []]. now left.
  - destruct (before q p); simpl.
    + intros [<- | H]; [right; now left |].
      destruct (IH H) as [-> | H']; [now left | right; now right].
    + intros [<- | H]; [now left | now right].
Qed.

Lemma sortBy_In (before : Payment -> Payment -> bool) (x : Payment)
  (l : list Payment) :
  In x (sortBy before l) -> In x l.
Proof.
  unfold sortBy.
  assert (G : forall acc, In x (fold_left (fun sorted p => insertBy before p sorted) l acc)
                          -> In x acc \/ In x l).
  { induction l as [| p l IH]; simpl; intros acc H; [now left |].
    destruct (IH _ H) as [H' | H']; [| right; now right].
    destruct (insertBy_In _ _ _ _ H') as [-> | H'']; [right; now left | now left]. }
  intros H. destruct (G [] H) as [[] | H']. exact H'.
Qed.

(** The multi-branch [GET /api/payments] is scoped: to anyone but an ADMIN it
    lists only payments of orders of the user's own branch. *)
Lemma payments_GET_scoped (q : PaymentQuery) (w : World) (user : SessionUser)
  (resp : Response) (rows : list (Payment * option Order)) :
  session w = Some user ->
  role user <> "ADMIN" ->
  fst (Payments.GET q w) = Returned resp ->
  body resp = PaymentList rows ->
  forall p o, In (p, o) rows ->
    exists order, o = Some order /\ Branch.branchId user = Some (orderBranchId order).
Proof.
  intros Hs Hrole Hget Hbody p o Hin.
  unfold Payments.GET, tryCatch, bind, requireAuth, json, ret, payment_findMany,
    console_error in Hget.
  rewrite Hs in Hget.
  destruct (String.eqb_spec (role user) "ADMIN") as [E | _]; [contradiction |].
  simpl in Hget.
  destruct (Js.orNull (Branch.branchId user)) as [b |] eqn:Eb; simpl in Hget.
  - injection Hget as <-. simpl in Hbody. injection Hbody as <-.
    apply in_map_iff in Hin. destruct Hin as (p' & Hp' & Hin).
    injection Hp' as -> <-.
    apply sortBy_In, filter_In in Hin. destruct Hin as [_ Hmatch].
    unfold matchesWhere in Hmatch. simpl in Hmatch.
    apply andb_prop in Hmatch. destruct Hmatch as [_ Hbranch].
    destruct (orderOf w p) as [order |]; [| discriminate].
    exists order. split; [reflexivity |].
    apply String.eqb_eq in Hbranch. rewrite Hbranch.
    unfold Js.orNull in Eb. destruct (Branch.branchId user) as [b' |]; [| discriminate].
    destruct (String.eqb b' ""); congruence.
  - injection Hget as <-. discriminate Hbody.
Qed.

(** C1 fails on the weekly report and on the first payment listing: signed in
    as staff of branch B1, both answer with the payment of an order of branch
    B2, while the multi-branch listing leaves it out. *)
Theorem weekly_report_crosses_branches :
  session Scenario.shop = Some Scenario.ama /\
  role Scenario.ama = "STAFF" /\
  Branch.branchId Scenario.ama = Some "B1" /\
  orderBranchId Scenario.koforiduaOrder = "B2" /\
  (exists report,
      fst (WeeklyPayments.GET (Some Scenario.weekStart) (Some Scenario.weekEnd)
             Scenario.shop)
        = Returned (mkResponse (Weekly report) 200) /\
      In (Scenario.koforiduaPayment, Some Scenario.koforiduaOrder)
         (allPayments report) /\
      reportTotalAmount report = 220%Q) /\
  (exists rows,
      fst (LegacyPayments.GET (mkQuery None None None) Scenario.shop)
        = Returned (mkResponse (PaymentList rows) 200) /\
      In (Scenario.koforiduaPayment, Some Scenario.koforiduaOrder) rows) /\
  fst (Payments.GET (mkQuery None None None) Scenario.shop)
    = Returned (mkResponse
                  (PaymentList [(Scenario.accraPayment, Some Scenario.accraOrder)])
                  200).
Proof.
  repeat split.
  - eexists. split; [vm_compute; reflexivity |]. split.
    + right. left. reflexivity.
    + reflexivity.
  - eexists. split; [vm_compute; reflexivity |]. left. reflexivity.
Qed.

(** ** Recording payments *)






Lemma readsAs_number (a : Q) : readsAs (Js.VNum (Js.Fin a)) a.
Proof.
  repeat split. intros Hpos. simpl.
  destruct (Qeq_bool a 0) eqn:E; [| reflexivity].
  apply Qeq_bool_iff in E. rewrite E in Hpos. now apply Qlt_irrefl in Hpos.
Qed.


Example readsAs_form_decimal : readsAs (Js.VStr "12.50") (1250 # 100).
Proof. repeat split. Qed.

(** Paying the exact balance succeeds and leaves nothing to pay. *)
Example exact_balance_is_accepted :
  exists p w',
    LegacyPayments.POST (mkRequest (Some "o1") (Js.VStr "80") None None None)
      Scenario.shop
    = (Returned (mkResponse
                   (PaymentCreated p Scenario.accraOrder [Scenario.accraPayment; p])
                   201), w') /\
    (totalAmount Scenario.accraOrder - sumAmounts (paymentsOf w' "o1") == 0)%Q.
Proof. eexists. eexists. split; [vm_compute; reflexivity | reflexivity]. Qed.

(** One cent more is refused. *)
Example one_cent_over_is_refused :
  LegacyPayments.POST (mkRequest (Some "o1") (Js.VStr "80.01") None None None)
    Scenario.shop
  = (Returned (mkResponse (ExceedsBalance 80) 400), Scenario.shop).
Proof. reflexivity. Qed.

(** C3 fails on the code: a request whose amount is the text "999abc" passes
    both checks, because the text compares as [NaN], and is stored as what
    [parseFloat] reads, 999; the order of 100 with 20 paid then has 1019
    paid.  Both versions of the route do this. *)
Theorem overpayment_is_recorded :
  Js.ToNumber (Js.VStr "999abc") = Js.NaN /\
  Js.parseFloat (Js.VStr "999abc") = Js.Fin 999 /\
  totalAmount Scenario.accraOrder = 100%Q /\
  paymentsOf Scenario.shop "o1" = [Scenario.accraPayment] /\
  (exists p w',
      LegacyPayments.POST (mkRequest (Some "o1") (Js.VStr "999abc") None None None)
        Scenario.shop
      = (Returned (mkResponse
                     (PaymentCreated p Scenario.accraOrder [Scenario.accraPayment; p])
                     201), w') /\
      amount p = 999%Q /\
      paymentsOf w' "o1" = [Scenario.accraPayment; p] /\
      sumAmounts (paymentsOf w' "o1") = 1019%Q /\
      ~ (sumAmounts (paymentsOf w' "o1") <= totalAmount Scenario.accraOrder)%Q) /\
  (exists p w',
      Payments.POST (mkRequest (Some "o1") (Js.VStr "999abc") None None None)
        Scenario.shop
      = (Returned (mkResponse
                     (PaymentCreated p Scenario.accraOrder [Scenario.accraPayment; p])
                     201), w') /\
      ~ (sumAmounts (paymentsOf w' "o1") <= totalAmount Scenario.accraOrder)%Q).
Proof.
  repeat split.
  - eexists. eexists. split; [vm_compute; reflexivity |].
    repeat split. vm_compute. intros H. apply H. reflexivity.
  - eexists. eexists. split; [vm_compute; reflexivity |].
    vm_compute. intros H. apply H. reflexivity.
Qed.

(** C4 fails on the code: the amount "12 cedis" is not a positive number, yet
    the request is not refused as an invalid amount: it is answered 201 and a
    payment of 12 is appended.  Both versions of the route do this. *)
Theorem unreadable_amount_is_accepted :
  Js.ToNumber (Js.VStr "12 cedis") = Js.NaN /\
  (exists p w',
      LegacyPayments.POST (mkRequest (Some "o1") (Js.VStr "12 cedis") None None None)
        Scenario.shop
      = (Returned (mkResponse
                     (PaymentCreated p Scenario.accraOrder [Scenario.accraPayment; p])
                     201), w') /\
      amount p = 12%Q /\
      payments w' = (payments Scenario.shop ++ [p])%list) /\
  (exists p w',
      Payments.POST (mkRequest (Some "o1") (Js.VStr "12 cedis") None None None)
        Scenario.shop
      = (Returned (mkResponse
                     (PaymentCreated p Scenario.accraOrder [Scenario.accraPayment; p])
                     201), w') /\
      amount p = 12%Q /\
      payments w' = (payments Scenario.shop ++ [p])%list).
Proof.
  repeat split.
  - eexists. eexists. split; [vm_compute; reflexivity |]. split; reflexivity.
  - eexists. eexists. split; [vm_compute; reflexivity |]. split; reflexivity.
Qed.

(** The weekly report at a sample week: seven buckets. *)
Lemma weekly_day_buckets_witness :
  exists report,
    WeeklyPayments.aggregate
      [(Scenario.accraPayment, Some Scenario.accraOrder);
       (Scenario.koforiduaPayment, Some Scenario.koforiduaOrder)]
      Scenario.weekStart Scenario.weekEnd = Returned report /\
    List.length (byDay report) = 7%nat.
Proof.
  destruct (weekly_day_buckets
              [(Scenario.accraPayment, Some Scenario.accraOrder);
               (Scenario.koforiduaPayment, Some Scenario.koforiduaOrder)]
              Scenario.weekStart Scenario.weekEnd)
    as (report & Hagg & _ & _ & Hseven & _).
  - vm_compute. discriminate.
  - exists report. split; [exact Hagg | apply Hseven; reflexivity].
Defined.

(** Payments on day 3 and day 5 only: seven buckets, five of them empty. *)
Example weekly_two_paid_days :
  exists report,
    WeeklyPayments.aggregate
      [(Scenario.accraPayment, Some Scenario.accraOrder);
       (Scenario.koforiduaPayment, Some Scenario.koforiduaOrder)]
      Scenario.weekStart Scenario.weekEnd = Returned report /\
    map count (byDay report) = [0; 0; 1; 0; 1; 0; 0]%nat /\
    map total (byDay report) = [0; 0; 20; 0; 200; 0; 0]%Q.
Proof. eexists. split; [vm_compute; reflexivity | split; reflexivity]. Qed.

(** The worked scenario of the specification: 450.00 with 200.00 and 100.00
    paid and a due date two days back. *)
Example worked_scenario :
  let paid := [mkPayment 0 "o" 200 0 "CASH" None None;
               mkPayment 1 "o" 100 0 "MOMO" None None] in
  let now := 10 * msPerDay + 3600000 in
  let due := 8 * msPerDay + 7200000 in
  calculateAmountPaid paid = 300%Q /\
  calculateBalance 450 (calculateAmountPaid paid) = 150%Q /\
  calculateDaysToDue now due = -2 /\
  getDueDateUrgency now due = Overdue /\
  getUrgencyLabel (getDueDateUrgency now due) (calculateDaysToDue now due)
    = "2 days overdue".
Proof. repeat split. Qed.

(* ===================================================================== *)
(** * Further properties *)
(* ===================================================================== *)

Import UtilsRest.

(** ** Days to due, tiers, colours *)

Lemma setHours0_dayIndex (d : Date) : setHours0 d = dayIndex d * msPerDay.
Proof.
  unfold setHours0, dayIndex.
  pose proof (Z.div_mod d msPerDay ltac:(unfold msPerDay; lia)). lia.
Qed.

Lemma daysToDue_days (now dueDate : Date) :
  calculateDaysToDue now dueDate = dayIndex dueDate - dayIndex now.
Proof.
  unfold calculateDaysToDue, differenceInDays.
  rewrite !setHours0_dayIndex.
  replace (dayIndex dueDate * msPerDay - dayIndex now * msPerDay)
    with ((dayIndex dueDate - dayIndex now) * msPerDay) by lia.
  apply Z.quot_mul. unfold msPerDay; lia.
Qed.

(** X1: the days to due are the difference of the two calendar days: the
    time of day of now and of the due date play no part, and moving both by
    the same number of days changes nothing. *)
Theorem calculateDaysToDue_calendar_days :
  forall now dueDate : Date,
    calculateDaysToDue now dueDate = dayIndex dueDate - dayIndex now /\
    (forall now' dueDate',
        dayIndex now' = dayIndex now -> dayIndex dueDate' = dayIndex dueDate ->
        calculateDaysToDue now' dueDate' = calculateDaysToDue now dueDate) /\
    (forall k,
        calculateDaysToDue (now + k * msPerDay) (dueDate + k * msPerDay) =
        calculateDaysToDue now dueDate).
Proof.
  intros now dueDate. repeat split.
  - apply daysToDue_days.
  - intros now' dueDate' Hn Hd. rewrite !daysToDue_days. lia.
  - intros k. rewrite !daysToDue_days. unfold dayIndex.
    rewrite !Z.div_add by (unfold msPerDay; lia). lia.
Qed.

(** X2: a later due date is never more pressing, and a later look at the
    same due date never less. *)
Theorem urgency_monotone :
  forall now now' due due' : Date,
    now <= now' -> due <= due' ->
    pressure (getDueDateUrgency now due') <= pressure (getDueDateUrgency now due) /\
    pressure (getDueDateUrgency now due) <= pressure (getDueDateUrgency now' due).
Proof.
  intros now now' due due' Hnow Hdue.
  unfold getDueDateUrgency. rewrite !daysToDue_days.
  pose proof (dayIndex_monotone _ _ Hnow). pose proof (dayIndex_monotone _ _ Hdue).
  cbv zeta. split; tier_cases; simpl; lia.
Qed.

Lemma urgency_monotone_witness :
  pressure (getDueDateUrgency 0 (6 * msPerDay)) <= pressure (getDueDateUrgency 0 msPerDay) /\
  pressure (getDueDateUrgency 0 msPerDay) <= pressure (getDueDateUrgency (2 * msPerDay) msPerDay).
Proof.
  apply (urgency_monotone 0 (2 * msPerDay) msPerDay (6 * msPerDay));
    unfold msPerDay; lia.
Defined.

(** X3: no two tiers share a background, a text or a border colour. *)
Theorem urgency_colors_distinct :
  forall u v : DueDateUrgency,
    u <> v ->
    bg (getUrgencyColor u) <> bg (getUrgencyColor v) /\
    text (getUrgencyColor u) <> text (getUrgencyColor v) /\
    border (getUrgencyColor u) <> border (getUrgencyColor v).
Proof.
  intros u v H. destruct u, v; try (exfalso; apply H; reflexivity);
    repeat split; discriminate.
Qed.

Lemma urgency_colors_distinct_witness :
  bg (getUrgencyColor Overdue) <> bg (getUrgencyColor Safe) /\
  text (getUrgencyColor Overdue) <> text (getUrgencyColor Safe) /\
  border (getUrgencyColor Overdue) <> border (getUrgencyColor Safe).
Proof.
  apply (urgency_colors_distinct Overdue Safe). discriminate.
Defined.

(** ** Amount paid, balance, enriched orders *)







(** ** Weeks *)

Ltac day_arith :=
  unfold startOfWeek, endOfWeek, weekday, dayIndex, setHours0, msPerDay in *;
  Z.div_mod_to_equations; lia.

(** X6: the current week starts on a Monday at midnight, lasts seven days to
    the millisecond and contains now; last week is the week just before it. *)
Theorem weeks_are_monday_to_sunday :
  forall now : Date,
    let (start, finish) := getCurrentWeek now in
    let (lastStart, lastFinish) := getLastWeek now in
    start <= now <= finish /\
    weekday start = 0 /\ setHours0 start = start /\
    finish = start + 7 * msPerDay - 1 /\
    weekday finish = 6 /\
    lastStart = start - 7 * msPerDay /\
    lastFinish + 1 = start.
Proof.
  intros now. unfold getCurrentWeek, getLastWeek. cbv zeta.
  repeat split; day_arith.
Qed.

(** ** Order numbers, one after the other *)

Import OrdersRoute.

Ltac scan_digit :=
  cbn [NilEmpty.string_of_uint Js.scanDigits];
  match goal with
  | |- context [Js.digitIn 10 ?c] =>
      let v := eval vm_compute in (Js.digitIn 10 c) in
      change (Js.digitIn 10 c) with v
  end;
  cbv iota beta.

Lemma scanDigits_uint_acc (u : Decimal.uint) (acc : positive) (cnt : nat) :
  Js.scanDigits 10 (Z.pos acc) cnt (NilEmpty.string_of_uint u) =
  (Z.pos (Pos.of_uint_acc u acc), (cnt + Decimal.nb_digits u)%nat, EmptyString).
Proof.
  revert acc cnt.
  induction u; intros acc cnt; cbn [Pos.of_uint_acc Decimal.nb_digits];
    [ simpl; rewrite Nat.add_0_r; reflexivity | .. ];
    scan_digit;
    match goal with
    | |- Js.scanDigits 10 ?a _ _ = (Z.pos ?b, _, _) =>
        match b with
        | Pos.of_uint_acc _ ?b' => replace a with (Z.pos b') by lia
        end
    end;
    rewrite IHu; f_equal; f_equal; lia.
Qed.

Lemma scanDigits_uint (u : Decimal.uint) (cnt : nat) :
  Js.scanDigits 10 0 cnt (NilEmpty.string_of_uint u) =
  (Z.of_N (Pos.of_uint u), (cnt + Decimal.nb_digits u)%nat, EmptyString).
Proof.
  revert cnt.
  induction u; intros cnt; cbn [Pos.of_uint Decimal.nb_digits];
    [ simpl; rewrite Nat.add_0_r; reflexivity
    | scan_digit; change (0 * 10 + 0) with 0; rewrite IHu; f_equal; f_equal; lia
    | .. ];
    scan_digit;
    match goal with
    | |- Js.scanDigits 10 ?a _ _ = _ =>
        let v := eval vm_compute in a in change a with v
    end;
    rewrite scanDigits_uint_acc; f_equal; f_equal; lia.
Qed.

Lemma scanDigits_count_shift (radix acc : Z) (cnt : nat) (s : string) :
  Js.scanDigits radix acc cnt s =
  let '(v, n, rest) := Js.scanDigits radix acc 0 s in (v, (cnt + n)%nat, rest).
Proof.
  revert acc cnt. induction s as [| c s IH]; intros acc cnt; simpl.
  - rewrite Nat.add_0_r. reflexivity.
  - destruct (Js.digitIn radix c) as [d |].
    + rewrite (IH _ (S cnt)), (IH _ 1%nat).
      destruct (Js.scanDigits radix (acc * radix + d) 0 s) as [[v n] rest].
      f_equal. f_equal. lia.
    + rewrite Nat.add_0_r. reflexivity.
Qed.

Lemma intToString_nonneg (n : Z) :
  0 <= n ->
  Js.intToString n = NilEmpty.string_of_uint (N.to_uint (Z.to_N n)) /\
  N.to_uint (Z.to_N n) <> Decimal.Nil.
Proof.
  intros Hn. unfold Js.intToString. destruct n as [| p | p]; [| | lia].
  - split; [reflexivity | discriminate].
  - simpl. pose proof (DecimalPos.Unsigned.to_uint_nonnil p) as Hnil.
    split; [| exact Hnil]. unfold NilZero.string_of_uint.
    destruct (Pos.to_uint p); [contradiction | reflexivity ..].
Qed.

Lemma string_of_uint_length (u : Decimal.uint) :
  String.length (NilEmpty.string_of_uint u) = Decimal.nb_digits u.
Proof. induction u; simpl; congruence. Qed.

(** The text of a number that is not negative: decimal digits, at least one,
    that denote the number. *)
Lemma intToString_digits (n : Z) :
  0 <= n ->
  allDecimal (Js.intToString n) = true /\
  Js.intToString n <> EmptyString /\
  decimalValue (Js.intToString n) = n.
Proof.
  intros Hn. destruct (intToString_nonneg n Hn) as [-> Hnil].
  split; [apply string_of_uint_decimal |]. split.
  - destruct (N.to_uint (Z.to_N n)); [contradiction | discriminate ..].
  - unfold decimalValue. rewrite scanDigits_uint. cbn [fst].
    change (Pos.of_uint (N.to_uint (Z.to_N n))) with (N.of_uint (N.to_uint (Z.to_N n))).
    rewrite DecimalN.Unsigned.of_to. lia.
Qed.

Lemma padStart_zeros (n : nat) (s : string) :
  allDecimal s = true ->
  allDecimal (Js.padStart n "0" s) = true /\
  decimalValue (Js.padStart n "0" s) = decimalValue s /\
  String.length (Js.padStart n "0" s) = Nat.max n (String.length s).
Proof.
  intros Hs. unfold Js.padStart.
  assert (G : forall k,
             allDecimal (string_of_list_ascii (repeat "0"%char k) ++ s) = true /\
             decimalValue (string_of_list_ascii (repeat "0"%char k) ++ s) = decimalValue s /\
             String.length (string_of_list_ascii (repeat "0"%char k) ++ s)
             = (k + String.length s)%nat).
  { induction k as [| k (IHa & IHv & IHl)]; [repeat split; assumption |].
    cbn [repeat string_of_list_ascii String.append allDecimal String.length].
    change (Js.digitIn 10 "0") with (Some 0).
    split; [exact IHa |]. split; [| rewrite IHl; reflexivity].
    unfold decimalValue in *. cbn [Js.scanDigits].
    change (Js.digitIn 10 "0") with (Some 0). cbv iota beta.
    change (0 * 10 + 0) with 0. rewrite scanDigits_count_shift.
    destruct (Js.scanDigits 10 0 0 _) as [[v c] r]. exact IHv. }
  destruct (G (n - String.length s)%nat) as (Ha & Hv & Hl).
  repeat split; try assumption. rewrite Hl. lia.
Qed.





Lemma issued_text (year : N) (k : nat) :
  (1 <= k)%nat ->
  issued year k =
  Some (orderPrefix year ++ Js.padStart 4 "0" (Js.intToString (Z.of_nat k))).
Proof.
  induction k as [| k IH]; [lia |]. intros _.
  destruct k as [| k']; [reflexivity |].
  cbn [issued] in *. rewrite IH by lia.
  assert (Hk : 0 <= Z.of_nat (S k')) by lia.
  destruct (intToString_digits _ Hk) as (Ha & Hne & Hv).
  destruct (padStart_zeros 4 _ Ha) as (Hpa & Hpv & Hpl).
  rewrite generateOrderNumber_next; trivial.
  - rewrite Hpv, Hv.
    replace (Z.of_nat (S k') + 1) with (Z.of_nat (S (S k'))) by lia. reflexivity.
  - intros E. rewrite E in Hpl. cbn [String.length] in Hpl. lia.
Qed.

(** X8: numbering each order from the one before gives the k-th order of a
    year the number "T-<year>-" followed by k, padded to four digits, and no
    two orders the same number. *)
Theorem issued_numbers_count_up :
  forall (year : N) (j k : nat),
    (1 <= j)%nat -> (1 <= k)%nat ->
    Z.of_nat j <= 9007199254740992 -> Z.of_nat k <= 9007199254740992 ->
    issued year k =
      Some (orderPrefix year ++ Js.padStart 4 "0" (Js.intToString (Z.of_nat k))) /\
    (issued year j = issued year k -> j = k).
Proof.
  intros year j k Hj Hk _ _. split; [apply issued_text, Hk |].
  rewrite !issued_text by assumption. intros E. injection E as E.
  assert (Hcut : forall a b c : string, (a ++ b = a ++ c -> b = c)%string).
  { induction a as [| x a IHa]; simpl; intros b c H; [exact H |].
    injection H as H. apply IHa, H. }
  apply Hcut in E.
  assert (Hval : forall n : nat,
             decimalValue (Js.padStart 4 "0" (Js.intToString (Z.of_nat n))) = Z.of_nat n).
  { intros n. destruct (intToString_digits (Z.of_nat n) ltac:(lia)) as (Ha & _ & Hv).
    destruct (padStart_zeros 4 _ Ha) as (_ & Hpv & _). congruence. }
  pose proof (Hval j) as Hvj. rewrite E, Hval in Hvj. lia.
Qed.

Lemma issued_numbers_count_up_witness :
  issued 2025 43 = Some "T-2025-0043" /\
  (issued 2025 42 = issued 2025 43 -> 42 = 43)%nat.
Proof.
  destruct (issued_numbers_count_up 2025 42 43) as [H1 H2]; try lia.
  split; [rewrite H1; reflexivity | exact H2].
Defined.

(** ** The last order number by text *)

Lemma ascii_compare_refl (c : ascii) : Ascii.compare c c = Eq.
Proof.
  pose proof (Ascii.compare_antisym c c) as H.
  destruct (Ascii.compare c c); simpl in H; congruence.
Qed.

Lemma compare_common_prefix (p a b : string) :
  String.compare (p ++ a) (p ++ b) = String.compare a b.
Proof.
  induction p as [| c p IH]; simpl; [reflexivity |].
  rewrite ascii_compare_refl. exact IH.
Qed.

Lemma compare_before_prefix (x p s : string) :
  String.compare x p = Lt -> String.compare x (p ++ s) = Lt.
Proof.
  revert x. induction p as [| c p IH]; intros x H.
  - destruct x; discriminate H.
  - destruct x as [| d x]; [reflexivity |]. simpl in *.
    destruct (Ascii.compare d c); try assumption. apply IH, H.
Qed.

(** When one order number is last by text, [findFirst] returns it. *)
Lemma order_findFirst_desc_last (w : World) (top : string) :
  (exists o, In o (orders w) /\ orderNumber o = top) ->
  (forall o, In o (orders w) -> String.leb (orderNumber o) top = true) ->
  order_findFirst_desc w = Some top.
Proof.
  unfold order_findFirst_desc.
  set (step := fun best o => match best with
                             | None => Some (orderNumber o)
                             | Some b => if String.ltb b (orderNumber o)
                                         then Some (orderNumber o) else Some b
                             end).
  assert (Hkeep : forall l, (forall o, In o l -> String.leb (orderNumber o) top = true) ->
                            fold_left step l (Some top) = Some top).
  { induction l as [| o l IH]; intros Hall; [reflexivity |]. simpl.
    assert (Hno : String.ltb top (orderNumber o) = false).
    { specialize (Hall o (or_introl eq_refl)). unfold String.leb in Hall.
      unfold String.ltb. rewrite String.compare_antisym.
      destruct (String.compare (orderNumber o) top); simpl; try reflexivity.
      discriminate Hall. }
    rewrite Hno. apply IH. intros o' Ho'. apply Hall. now right. }
  assert (G : forall l best,
             (forall o, In o l -> String.leb (orderNumber o) top = true) ->
             (exists o, In o l /\ orderNumber o = top) ->
             match best with Some b => String.leb b top = true | None => True end ->
             fold_left step l best = Some top).
  { induction l as [| o l IH]; intros best Hall (o' & Hin & Ho') Hbest; [destruct Hin |].
    simpl.
    assert (Hstep : match step best o with
                    | Some b => String.leb b top = true
                    | None => True
                    end).
    { unfold step. destruct best as [b |]; [| apply Hall; now left].
      destruct (String.ltb b (orderNumber o)); [apply Hall; now left | exact Hbest]. }
    destruct Hin as [<- | Hin].
    - assert (Hnow : step best o = Some top).
      { unfold step. rewrite Ho'. destruct best as [b |]; [| reflexivity].
        unfold String.ltb. unfold String.leb in Hbest.
        destruct (String.compare b top) eqn:E; try reflexivity; [| discriminate Hbest].
        apply String.compare_eq_iff in E. now subst. }
      rewrite Hnow. apply Hkeep. intros o'' Ho''. apply Hall. now right.
    - apply IH; [intros o'' Ho''; apply Hall; now right | exists o'; auto | exact Hstep]. }
  intros Hex Hall. apply G; trivial.
Qed.

Lemma four_digit_numbers_sort_first :
  forallb (fun k => String.leb (Js.padStart 4 "0" (Js.intToString (Z.of_nat k))) "9999")
          (seq 1 (Z.to_nat 10000)) = true.
Proof. vm_compute. reflexivity. Qed.

(** X9: [POST /api/orders] takes the order number that is last as text.
    Once the store holds the year's 9999, that is the one, also when 10000
    has been issued and whatever earlier years left: the number made is
    "T-<year>-10000" again, one an order already bears. *)
Theorem order_number_repeats_past_9999 :
  forall (year : N) (w : World),
    (exists o, In o (orders w) /\ orderNumber o = orderPrefix year ++ "9999") ->
    (forall o, In o (orders w) ->
        (exists n, 1 <= n <= 10000 /\
                   orderNumber o =
                   orderPrefix year ++ Js.padStart 4 "0" (Js.intToString n)) \/
        String.ltb (orderNumber o) (orderPrefix year) = true) ->
    order_findFirst_desc w = Some (orderPrefix year ++ "9999") /\
    nextOrderNumber year w = orderPrefix year ++ "10000" /\
    ((exists o, In o (orders w) /\ orderNumber o = orderPrefix year ++ "10000") ->
     exists o, In o (orders w) /\ orderNumber o = nextOrderNumber year w).
Proof.
  intros year w Hnine Hall.
  assert (Hlast : order_findFirst_desc w = Some (orderPrefix year ++ "9999")).
  { apply order_findFirst_desc_last; [exact Hnine |].
    intros o Ho. unfold String.leb.
    destruct (Hall o Ho) as [(n & Hn & ->) | Hlt].
    - rewrite compare_common_prefix.
      pose proof four_digit_numbers_sort_first as Hcheck.
      rewrite forallb_forall in Hcheck.
      specialize (Hcheck (Z.to_nat n)). rewrite Z2Nat.id in Hcheck by lia.
      unfold String.leb in Hcheck. apply Hcheck. apply in_seq. lia.
    - unfold String.ltb in Hlt.
      destruct (String.compare (orderNumber o) (orderPrefix year)) eqn:E;
        try discriminate Hlt.
      rewrite (compare_before_prefix _ _ _ E). reflexivity. }
  assert (Hnext : nextOrderNumber year w = orderPrefix year ++ "10000").
  { unfold nextOrderNumber. rewrite Hlast.
    assert (Hkept : Js.orNull (Some (orderPrefix year ++ "9999"))
                    = Some (orderPrefix year ++ "9999")) by reflexivity.
    rewrite Hkept.
    rewrite generateOrderNumber_next by (try reflexivity; discriminate).
    reflexivity. }
  repeat split; trivial. intros (o & Ho & Hnum). exists o. split; [exact Ho | congruence].
Qed.

Lemma order_number_repeats_past_9999_witness :
  nextOrderNumber 2025
    (mkWorld [mkOrder "a" "T-2024-0007" "B1" 10 0;
              mkOrder "b" "T-2025-9999" "B1" 10 0;
              mkOrder "c" "T-2025-10000" "B1" 10 0]
             [] [] None 0 None None [] [])
  = "T-2025-10000".
Proof.
  apply (order_number_repeats_past_9999 2025).
  - eexists. split; [right; left; reflexivity | reflexivity].
  - intros o [<- | [<- | [<- | []]]].
    + right. reflexivity.
    + left. exists 9999. split; [lia | reflexivity].
    + left. exists 10000. split; [lia | reflexivity].
Defined.

(** ** The branch policy, put together *)

Import Selection.

(** X10: the filter built for a user lets through exactly the branches the
    user has access to.  No filter is built only for a user who is no ADMIN
    and has no branch; that user has access to no branch with a name. *)
Theorem filter_agrees_with_access :
  forall user : SessionUser,
    (forall f, buildBranchFilter user = Returned f ->
               forall target, admits f target = hasAccessToBranch user target) /\
    (forall message, buildBranchFilter user = Thrown message ->
               message = "User not assigned to a branch" /\
               role user <> "ADMIN" /\
               forall target, target <> "" -> hasAccessToBranch user target = false).
Proof.
  intros user. unfold buildBranchFilter, hasAccessToBranch, isAdmin, admits.
  destruct (String.eqb_spec (role user) "ADMIN") as [Hadmin | Hnot].
  - split; [intros f [= <-] target; reflexivity | intros m H; discriminate H].
  - destruct (Branch.branchId user) as [b |].
    + destruct (String.eqb_spec b "") as [-> | Hb].
      * split; [intros f H; discriminate H |].
        intros m [= <-]. repeat split; trivial.
        intros target Ht. destruct (String.eqb_spec "" target); congruence.
      * split; [intros f [= <-] target; reflexivity | intros m H; discriminate H].
    + split; [intros f H; discriminate H |].
      intros m [= <-]. repeat split; trivial.
Qed.

(** X11: whatever branch [resolveBranchId] settles on for someone who is no
    ADMIN is that user's own, and every user has access to the branch
    resolved for them. *)
Theorem resolved_branch_is_accessible :
  forall (user : SessionUser) (requested : option string) (b : string),
    resolveBranchId user requested = Some b ->
    hasAccessToBranch user b = true /\
    (role user <> "ADMIN" -> Branch.branchId user = Some b).
Proof.
  intros user requested b. unfold resolveBranchId, hasAccessToBranch, isAdmin.
  destruct (String.eqb_spec (role user) "ADMIN") as [Hadmin | Hnot].
  - intros _. split; [reflexivity | intros H; contradiction].
  - intros ->. split; [apply String.eqb_refl | reflexivity].
Qed.

Lemma resolved_branch_is_accessible_witness :
  hasAccessToBranch Scenario.ama "B1" = true /\
  (role Scenario.ama <> "ADMIN" -> Branch.branchId Scenario.ama = Some "B1").
Proof.
  apply (resolved_branch_is_accessible Scenario.ama (Some "B2") "B1"). reflexivity.
Defined.

(** ** The payment routes on every request *)

Lemma insertBy_In_iff (before : Payment -> Payment -> bool) (p x : Payment)
  (l : list Payment) :
  In x (insertBy before p l) <-> x = p \/ In x l.
Proof.
  split; [apply insertBy_In |].
  induction l as [| q l IH]; simpl.
  - intros [-> | []]. now left.
  - destruct (before q p); simpl.
    + intros [-> | [-> | H]]; [right; apply IH; now left | now left | right; apply IH; now right].
    + intros [-> | [-> | H]]; [now left | right; now left | right; now right].
Qed.

Lemma sortBy_In_iff (before : Payment -> Payment -> bool) (x : Payment)
  (l : list Payment) :
  In x (sortBy before l) <-> In x l.
Proof.
  split; [apply sortBy_In |].
  unfold sortBy.
  assert (G : forall acc, In x acc \/ In x l ->
                          In x (fold_left (fun sorted p => insertBy before p sorted) l acc)).
  { induction l as [| p l IH]; simpl; intros acc H; [destruct H as [H | []]; exact H |].
    apply IH. destruct H as [H | [-> | H]].
    - left. apply insertBy_In_iff. now right.
    - left. apply insertBy_In_iff. now left.
    - now right. }
  intros H. apply G. now right.
Qed.

(** X12: what the multi-branch [GET /api/payments] lists for a signed-in
    user.  An ADMIN gets every payment the query selects; anyone else gets
    those of them whose order is of the user's own branch, and no others; a
    user who is no ADMIN and has no branch gets a 400.  Nothing is written. *)
Theorem payments_GET_lists :
  forall (q : PaymentQuery) (w : World) (user : SessionUser),
    session w = Some user ->
    let selected p :=
      matchesWhere w (mkWhere (Js.orNull (queryOrderId q)) (dateRange q) (mkFilter None)) p
      = true in
    (role user = "ADMIN" ->
       exists rows,
         Payments.GET q w = (Returned (mkResponse (PaymentList rows) 200), w) /\
         forall p o, In (p, o) rows <->
                     In p (payments w) /\ selected p /\ o = orderOf w p) /\
    (role user <> "ADMIN" ->
       forall b, Js.orNull (Branch.branchId user) = Some b ->
       exists rows,
         Payments.GET q w = (Returned (mkResponse (PaymentList rows) 200), w) /\
         forall p o, In (p, o) rows <->
                     In p (payments w) /\ selected p /\
                     exists order, o = Some order /\ orderOf w p = Some order /\
                                   orderBranchId order = b) /\
    (role user <> "ADMIN" -> Js.orNull (Branch.branchId user) = None ->
       Payments.GET q w =
       (Returned (mkResponse (ErrorBody "User not assigned to a branch") 400), w)).
Proof.
  intros q w user Hs selected.
  unfold Payments.GET, tryCatch, bind, requireAuth, json, ret, payment_findMany.
  rewrite Hs. cbv beta iota.
  split; [| split].
  - intros ->. cbn [String.eqb Ascii.eqb Bool.eqb negb]. simpl.
    eexists. split; [reflexivity |].
    intros p o. rewrite in_map_iff. split.
    + intros (p' & [= -> <-] & Hin). apply sortBy_In_iff, filter_In in Hin.
      destruct Hin as [Hin Hm]. repeat split; assumption.
    + intros (Hin & Hm & ->). exists p. split; [reflexivity |].
      apply sortBy_In_iff, filter_In. split; assumption.
  - intros Hrole b Hb.
    destruct (String.eqb_spec (role user) "ADMIN"); [contradiction |].
    cbn [negb]. rewrite Hb. cbv beta iota.
    eexists. split; [reflexivity |].
    intros p o. rewrite in_map_iff. split.
    + intros (p' & [= -> <-] & Hin). apply sortBy_In_iff, filter_In in Hin.
      destruct Hin as [Hin Hm]. unfold matchesWhere in Hm. cbn [whereOrderId
        wherePaymentDate whereOrder filterBranchId] in Hm.
      apply andb_prop in Hm. destruct Hm as [Hm Hbranch].
      split; [exact Hin |]. split.
      * unfold selected, matchesWhere. cbn [whereOrderId wherePaymentDate
          whereOrder filterBranchId]. rewrite Hm. reflexivity.
      * destruct (orderOf w p) as [order |]; [| discriminate].
        exists order. repeat split. apply String.eqb_eq, Hbranch.
    + intros (Hin & Hm & order & -> & Horder & Hbranch). exists p.
      split; [rewrite Horder; reflexivity |].
      apply sortBy_In_iff, filter_In. split; [exact Hin |].
      unfold selected, matchesWhere in Hm. cbn [whereOrderId wherePaymentDate
        whereOrder filterBranchId] in Hm. rewrite andb_true_r in Hm.
      unfold matchesWhere. cbn [whereOrderId wherePaymentDate whereOrder filterBranchId].
      rewrite Hm, Horder, Hbranch, String.eqb_refl. reflexivity.
  - intros Hrole Hb.
    destruct (String.eqb_spec (role user) "ADMIN"); [contradiction |].
    cbn [negb]. rewrite Hb. reflexivity.
Qed.

Lemma payments_GET_lists_witness :
  exists rows,
    Payments.GET (mkQuery None None None) Scenario.shop
    = (Returned (mkResponse (PaymentList rows) 200), Scenario.shop) /\
    forall p o, In (p, o) rows <->
                In p (payments Scenario.shop) /\
                matchesWhere Scenario.shop (mkWhere None None (mkFilter None)) p = true /\
                exists order, o = Some order /\ orderOf Scenario.shop p = Some order /\
                              orderBranchId order = "B1".
Proof.
  destruct (payments_GET_lists (mkQuery None None None) Scenario.shop Scenario.ama eq_refl)
    as (_ & Hstaff & _).
  apply (Hstaff ltac:(discriminate) "B1" eq_refl).
Defined.

Ltac refused :=
  eexists; eexists; split; [reflexivity |];
  cbn [orders session payments activityLogs outbox status withConsole withPayments
       withOutbox withActivityLogs];
  split; [reflexivity |]; right; repeat split; try reflexivity;
  cbn [status]; unfold Payments.errorStatus; simpl; lia.

(** X13: [POST /api/payments] of the multi-branch version, on every request
    and store.  It never throws and never touches the orders.  It answers
    201 only to a signed-in user, for an existing order of a branch that user
    has access to, and then it has appended exactly one payment: on that
    order, by that user, of the amount [parseFloat] reads.  With any other
    answer the payments, the activity log and the outbox are as before. *)
Theorem POST_appends_at_most_one :
  forall (req : PaymentRequest) (w : World),
    exists resp w',
      Payments.POST req w = (Returned resp, w') /\
      orders w' = orders w /\
      ((status resp = 201%nat /\
        exists p oid user order,
          session w = Some user /\
          Js.orNull (reqOrderId req) = Some oid /\
          find (fun o => String.eqb (orderId o) oid) (orders w) = Some order /\
          hasAccessToBranch user (orderBranchId order) = true /\
          payments w' = (payments w ++ [p])%list /\
          paymentOrderId p = oid /\
          Js.parseFloat (reqAmount req) = Js.Fin (amount p) /\
          paymentCreatedBy p = Some (id user))
       \/
       (status resp <> 201%nat /\
        payments w' = payments w /\
        activityLogs w' = activityLogs w /\
        outbox w' = outbox w)).
Proof.
  intros req w.
  unfold Payments.POST, tryCatch, bind, requireAuth, json, ret, order_findUnique,
    console_error.
  destruct (session w) as [user |] eqn:Hs; [| refused].
  cbv beta iota.
  destruct (Js.orNull (reqOrderId req)) as [oid |] eqn:Hoid; [| refused].
  destruct (negb (Js.ToBoolean (reqAmount req))
            || Js.num_leb (Js.ToNumber (reqAmount req)) (Js.Fin 0)) eqn:Hvalid;
    [refused |].
  cbv beta iota.
  destruct (find (fun o => String.eqb (orderId o) oid) (orders w)) as [order |] eqn:Hfind;
    [| refused].
  cbv beta iota.
  destruct (hasAccessToBranch user (orderBranchId order)) eqn:Hacc; cbn [negb];
    [| refused].
  destruct (Js.num_gtb (Js.ToNumber (reqAmount req)) _) eqn:Hgt; [refused |].
  cbv beta iota. unfold payment_create. cbn [dataAmount dataOrderId].
  destruct (Js.parseFloat (reqAmount req)) as [| neg | a] eqn:Hparse;
    [refused | refused |].
  match goal with
  | |- context [orderOf ?w1 ?p1] => destruct (orderOf w1 p1) as [paid |]; set (p := p1)
  end; [| refused].
  cbv beta iota.
  unfold logActivity, logActivityWith, activityLog_create, tryCatch, bind, ret,
    sendPaymentConfirmationSMS, console_error.
  cbn [auditFailure smsFailure withPayments withActivityLogs withConsole].
  destruct (auditFailure w) eqn:Eaudit, (smsFailure w) eqn:Esms; cbv beta iota;
    cbn [auditFailure smsFailure withPayments withActivityLogs withConsole];
    rewrite ?Esms; cbv beta iota;
    (eexists; eexists; split; [reflexivity |]);
    cbn [orders payments status withPayments withOutbox withConsole withActivityLogs];
    (split; [reflexivity |]); left; (split; [reflexivity |]);
    exists p, oid, user, order; repeat split; assumption || reflexivity.
Qed.

(** X14: the first version of [POST /api/payments], on every request and
    store: it never throws, never touches the orders, answers 201 only for an
    existing order and has then appended exactly one payment, on that order,
    of the amount [parseFloat] reads; with any other answer the payments and
    the outbox are as before. *)
Theorem legacy_POST_appends_at_most_one :
  forall (req : PaymentRequest) (w : World),
    exists resp w',
      LegacyPayments.POST req w = (Returned resp, w') /\
      orders w' = orders w /\
      ((status resp = 201%nat /\
        exists p oid order,
          Js.orNull (reqOrderId req) = Some oid /\
          find (fun o => String.eqb (orderId o) oid) (orders w) = Some order /\
          payments w' = (payments w ++ [p])%list /\
          paymentOrderId p = oid /\
          Js.parseFloat (reqAmount req) = Js.Fin (amount p))
       \/
       (status resp <> 201%nat /\
        payments w' = payments w /\
        activityLogs w' = activityLogs w /\
        outbox w' = outbox w)).
Proof.
  intros req w.
  unfold LegacyPayments.POST, tryCatch, bind, json, ret, order_findUnique,
    console_error.
  destruct (Js.orNull (reqOrderId req)) as [oid |] eqn:Hoid; [| refused].
  destruct (negb (Js.ToBoolean (reqAmount req))
            || Js.num_leb (Js.ToNumber (reqAmount req)) (Js.Fin 0)) eqn:Hvalid;
    [refused |].
  cbv beta iota.
  destruct (find (fun o => String.eqb (orderId o) oid) (orders w)) as [order |] eqn:Hfind;
    [| refused].
  cbv beta iota.
  destruct (Js.num_gtb (Js.ToNumber (reqAmount req)) _) eqn:Hgt; [refused |].
  cbv beta iota. unfold payment_create. cbn [dataAmount dataOrderId].
  destruct (Js.parseFloat (reqAmount req)) as [| neg | a] eqn:Hparse;
    [refused | refused |].
  match goal with
  | |- context [orderOf ?w1 ?p1] => destruct (orderOf w1 p1) as [paid |]; set (p := p1)
  end; [| refused].
  cbv beta iota.
  unfold sendPaymentConfirmationSMS, tryCatch, console_error.
  cbn [smsFailure withPayments].
  destruct (smsFailure w) eqn:Esms; cbv beta iota;
    (eexists; eexists; split; [reflexivity |]);
    cbn [orders payments status withPayments withOutbox withConsole];
    (split; [reflexivity |]); left; (split; [reflexivity |]);
    exists p, oid, order; repeat split; assumption || reflexivity.
Qed.

(** ** The weekly report adds up *)

Import Totals.










(** ** The weekly report by payment method *)









(** ** Recording payments: the checks on amounts that read as numbers *)



(** ** Who may record a payment *)

(** X19: an order of a branch the user has no access to is refused with the
    words used for an order that does not exist, "Order not found", but with
    status 403 where the missing order gets 404; either way nothing is
    written. *)
Theorem POST_masks_other_branches :
  forall (req : PaymentRequest) (w : World) (user : SessionUser) (oid : string),
    session w = Some user ->
    Js.orNull (reqOrderId req) = Some oid ->
    negb (Js.ToBoolean (reqAmount req))
      || Js.num_leb (Js.ToNumber (reqAmount req)) (Js.Fin 0) = false ->
    (forall order,
        find (fun o => String.eqb (orderId o) oid) (orders w) = Some order ->
        hasAccessToBranch user (orderBranchId order) = false ->
        Payments.POST req w =
        (Returned (mkResponse (ErrorBody "Order not found") 403), w)) /\
    (find (fun o => String.eqb (orderId o) oid) (orders w) = None ->
        Payments.POST req w =
        (Returned (mkResponse (ErrorBody "Order not found") 404), w)).
Proof.
  intros req w user oid Hs Hoid Hvalid.
  unfold Payments.POST, tryCatch, bind, requireAuth, json, ret, order_findUnique.
  rewrite Hs. cbv beta iota. rewrite Hoid, Hvalid. cbv beta iota.
  split.
  - intros order Hfind Hacc. rewrite Hfind. cbv beta iota. rewrite Hacc. reflexivity.
  - intros Hfind. rewrite Hfind. reflexivity.
Qed.

Lemma POST_masks_other_branches_witness :
  Payments.POST (mkRequest (Some "o2") (Js.VStr "50") None None None) Scenario.shop
  = (Returned (mkResponse (ErrorBody "Order not found") 403), Scenario.shop).
Proof.
  destruct (POST_masks_other_branches
              (mkRequest (Some "o2") (Js.VStr "50") None None None)
              Scenario.shop Scenario.ama "o2" eq_refl eq_refl eq_refl) as [Hother _].
  apply (Hother Scenario.koforiduaOrder); reflexivity.
Defined.



(** ** What [logActivity] leaves behind *)

(** X21: when the store takes the record, [logActivity] appends exactly one
    row, the one it was given with an empty entity id turned into none; when
    the store fails with a message, the log stays as it was and one line with
    that message goes to the console.  Orders, payments and the outbox are
    never touched. *)
Theorem logActivity_effect :
  forall (params : LogActivityParams) (w : World),
    let row := mkActivityLog (userId params) (userName params)
                 (ActivityLogger.branchId params) (action params) (entity params)
                 (Js.orNull (entityId params)) (description params)
                 (metadata params) in
    (auditFailure w = None ->
       logActivity params w =
       (Returned tt, withActivityLogs w (activityLogs w ++ [row]))) /\
    (forall message,
        auditFailure w = Some message ->
        logActivity params w =
        (Returned tt,
         withConsole w (console w ++ ["Failed to log activity: " ++ message]))) /\
    orders (snd (logActivity params w)) = orders w /\
    payments (snd (logActivity params w)) = payments w /\
    outbox (snd (logActivity params w)) = outbox w.
Proof.
  intros params w row.
  unfold logActivity, logActivityWith, activityLog_create, tryCatch, bind, ret,
    console_error.
  destruct (auditFailure w) as [m |]; cbv beta iota.
  - split; [discriminate |]. split; [intros message [= ->]; reflexivity |].
    repeat split.
  - split; [reflexivity |]. split; [discriminate |]. repeat split.
Qed.

(** ** The dashboard *)

Import Dashboard.

Lemma categorize_from (now : Date) (os : list Order) (c : Categorized) :
  let tier u o := DueDateUrgency_eqb (getDueDateUrgency now (dueDate o)) u in
  fold_left (categorizeOrder now) os c =
  mkCategorized (overdue c ++ filter (tier Overdue) os)
                (due1Day c ++ filter (tier Warning1) os)
                (due3Days c ++ filter (tier Warning3) os)
                (due5Days c ++ filter (tier Warning5) os).
Proof.
  intros tier. revert c. induction os as [| o os IH]; intros c.
  - simpl. rewrite !app_nil_r. destruct c; reflexivity.
  - cbn [fold_left filter]. rewrite IH. subst tier. cbv beta.
    unfold categorizeOrder, getDueDateUrgency. cbv zeta.
    tier_cases; cbn [DueDateUrgency_eqb overdue due1Day due3Days due5Days];
      rewrite <- ?app_assoc; reflexivity.
Qed.

Lemma totalOutstanding_from (now : Date) (l : list (Order * list Payment)) (a : Q) :
  (fold_left
     (fun sum entry =>
        let paid := fold_left (fun pSum p => pSum + amount p) (snd entry) 0 in
        sum + (totalAmount (fst entry) - paid))
     l a ==
   a + sumQ (map (fun entry => balance (enrichOrder now (fst entry) (snd entry))) l))%Q.
Proof.
  revert a. induction l as [| [o ps] l IH]; intros a; [simpl; lra |].
  cbn [fold_left map]. rewrite IH.
  change (sumQ (?x :: ?r)) with (x + sumQ r)%Q.
  set (rest := sumQ _). cbn [fst snd].
  unfold enrichOrder. cbn [balance]. unfold calculateBalance, calculateAmountPaid. lra.
Qed.

(** X22: the dashboard's four lists are the upcoming orders of the tiers
    overdue, warning-1, warning-3 and warning-5 of [getDueDateUrgency], each
    in the order the orders came in; an order is in none of them exactly when
    it is safe; and the total outstanding is the sum of the balances
    [enrichOrder] gives the active orders. *)
Theorem dashboard_follows_the_tiers :
  forall (now : Date) (upcoming : list Order) (active : list (Order * list Payment)),
    let tier u o := DueDateUrgency_eqb (getDueDateUrgency now (dueDate o)) u in
    let c := categorize now upcoming in
    overdue c = filter (tier Overdue) upcoming /\
    due1Day c = filter (tier Warning1) upcoming /\
    due3Days c = filter (tier Warning3) upcoming /\
    due5Days c = filter (tier Warning5) upcoming /\
    (forall o, In o upcoming ->
       (~ In o (overdue c ++ due1Day c ++ due3Days c ++ due5Days c)%list
        <-> getDueDateUrgency now (dueDate o) = Safe)) /\
    (totalOutstanding active ==
     sumQ (map (fun entry => balance (enrichOrder now (fst entry) (snd entry))) active))%Q.
Proof.
  intros now upcoming active tier c.
  assert (Hc : c = mkCategorized (filter (tier Overdue) upcoming)
                     (filter (tier Warning1) upcoming)
                     (filter (tier Warning3) upcoming)
                     (filter (tier Warning5) upcoming)).
  { subst c. unfold categorize. rewrite categorize_from. reflexivity. }
  rewrite Hc. cbn [overdue due1Day due3Days due5Days].
  repeat (split; [reflexivity |]). split.
  - intros o Ho. rewrite !in_app_iff, !filter_In. subst tier. cbv beta.
    destruct (getDueDateUrgency now (dueDate o)); simpl; split; intros H;
      try reflexivity; try discriminate H;
      try (exfalso; apply H; tauto).
    intros [[_ F] | [[_ F] | [[_ F] | [_ F]]]]; discriminate F.
  - unfold totalOutstanding. rewrite (totalOutstanding_from now). lra.
Qed.

(** ** The payments page and the weekly report *)

Import PaymentsPage.

(** What the weekly handler answers for a range in order. *)
Lemma weekly_GET_fetches (startDate endDate : Date) (w : World) :
  startDate <= endDate ->
  exists report,
    WeeklyPayments.GET (Some startDate) (Some endDate) w
      = (Returned (mkResponse (Weekly report) 200), w) /\
    map fst (allPayments report)
      = sortBy asc (filter (paidWithin startDate endDate) (payments w)) /\
    byDay report
      = map (WeeklyPayments.dayBucket (map fst (allPayments report)))
            (map (fun k => setHours0 startDate + Z.of_nat k * msPerDay)
                 (seq 0 (Z.to_nat (dayIndex endDate - dayIndex startDate + 1)))).
Proof.
  intros Hrange.
  assert (Hwhere : filter (matchesWhere w (mkWhere None (Some (startDate, endDate))
                                            (mkFilter None))) (payments w)
                   = filter (paidWithin startDate endDate) (payments w)).
  { apply filter_ext. intros p. unfold matchesWhere, paidWithin. simpl.
    apply andb_true_r. }
  assert (Hfst : forall l : list Payment,
             map fst (map (fun p => (p, orderOf w p)) l) = l).
  { intros l. rewrite map_map. simpl. apply map_id. }
  eexists. split; [| split].
  - unfold WeeklyPayments.GET, tryCatch, bind, payment_findMany, json, ret.
    cbv beta iota. rewrite Hwhere.
    unfold WeeklyPayments.aggregate, WeeklyPayments.eachDayOfInterval.
    destruct (Z.ltb_spec endDate startDate); [lia |]. reflexivity.
  - cbn [allPayments]. apply Hfst.
  - cbn [allPayments byDay]. reflexivity.
Qed.

Lemma dayIndex_dateOfText (day : Z) : dayIndex (dateOfText day) = day.
Proof.
  unfold dayIndex, dateOfText. apply Z.div_mul. unfold msPerDay; lia.
Qed.

(** X23: the report the payments page asks for.  The page sends its two
    dates as date-only texts, which the handler reads as the two midnights.
    The report has a bucket for every day from the first to the last, seven
    for this week and for last week, but it holds only the payments made up
    to midnight at the start of the last day: a payment made later that day
    is in no bucket, and not in the totals. *)
Theorem weekly_page_stops_at_midnight :
  forall (range : DateRange) (now : Date) (customStart customEnd : option Z)
         (w : World) (s e : Z),
    requestedRange range now customStart customEnd = Some (s, e) ->
    s <= e ->
    exists handler report,
      fetchReport range now customStart customEnd = Some handler /\
      handler w = (Returned (mkResponse (Weekly report) 200), w) /\
      map date (byDay report) =
        map (fun k => s + Z.of_nat k) (seq 0 (Z.to_nat (e - s + 1))) /\
      (range <> Custom -> List.length (byDay report) = 7%nat) /\
      (forall p,
          In p (map fst (allPayments report)) <->
          In p (payments w) /\ dateOfText s <= paymentDate p <= dateOfText e) /\
      (forall p,
          In p (payments w) ->
          dayIndex (paymentDate p) = e -> dateOfText e < paymentDate p ->
          ~ In p (map fst (allPayments report)) /\
          forall bucket, In bucket (byDay report) -> ~ In p (dayPayments bucket)).
Proof.
  intros range now customStart customEnd w s e Hreq Hse.
  assert (Hdates : dateOfText s <= dateOfText e)
    by (unfold dateOfText, msPerDay; lia).
  destruct (weekly_GET_fetches (dateOfText s) (dateOfText e) w Hdates)
    as (report & Hget & Hall & Hdays).
  rewrite !dayIndex_dateOfText in Hdays.
  assert (Hreported : forall p,
             In p (map fst (allPayments report)) <->
             In p (payments w) /\ dateOfText s <= paymentDate p <= dateOfText e).
  { intros p. rewrite Hall, sortBy_In_iff, filter_In. unfold paidWithin.
    rewrite andb_true_iff, !Z.leb_le. tauto. }
  exists (WeeklyPayments.GET (Some (dateOfText s)) (Some (dateOfText e))), report.
  split; [unfold fetchReport; rewrite Hreq; reflexivity |].
  split; [exact Hget |].
  assert (Hlist : map date (byDay report) =
                  map (fun k => s + Z.of_nat k) (seq 0 (Z.to_nat (e - s + 1)))).
  { rewrite Hdays, !map_map. apply map_ext. intros k. simpl.
    unfold WeeklyPayments.format_yyyyMMdd.
    rewrite dayIndex_of_day, dayIndex_dateOfText. reflexivity. }
  split; [exact Hlist |]. split; [| split; [exact Hreported |]].
  - intros Hweek.
    rewrite <- (length_map date), Hlist, length_map, length_seq.
    assert (He : e = s + 6).
    { unfold requestedRange in Hreq.
      destruct range; [| | contradiction]; injection Hreq as <- <-;
        unfold getCurrentWeek, getLastWeek, WeeklyPayments.format_yyyyMMdd;
        cbn [fst snd]; day_arith. }
    rewrite He. replace (s + 6 - s + 1) with 7 by lia. reflexivity.
  - intros p Hp Hday Hlate.
    assert (Hnot : ~ In p (map fst (allPayments report))).
    { rewrite Hreported. intros [_ [_ Hle]]. lia. }
    split; [exact Hnot |].
    intros bucket Hb Hin. rewrite Hdays in Hb. apply in_map_iff in Hb.
    destruct Hb as (day & <- & _). simpl in Hin. apply filter_In in Hin.
    apply Hnot, Hin.
Qed.

Lemma weekly_page_stops_at_midnight_witness :
  exists handler report,
    fetchReport ThisWeek (5 * msPerDay) None None = Some handler /\
    handler Scenario.shop
      = (Returned (mkResponse (Weekly report) 200), Scenario.shop) /\
    List.length (byDay report) = 7%nat.
Proof.
  destruct (weekly_page_stops_at_midnight ThisWeek (5 * msPerDay) None None
              Scenario.shop 4 10 eq_refl ltac:(lia))
    as (handler & report & Hfetch & Hget & _ & Hseven & _).
  exists handler, report. repeat split; trivial. apply Hseven. discriminate.
Defined.

(** ** The activity log route *)

Import ActivityLogs.

Lemma insertOn_In_iff {A : Type} (before : A -> A -> bool) (x y : A) (l : list A) :
  In y (insertOn before x l) <-> y = x \/ In y l.
Proof.
  induction l as [| z l IH]; simpl.
  - intuition.
  - destruct (before x z); simpl; [intuition | rewrite IH; intuition].
Qed.

Lemma sortOn_In_iff {A : Type} (before : A -> A -> bool) (y : A) (l : list A) :
  In y (sortOn before l) <-> In y l.
Proof.
  induction l as [| z l IH]; simpl; [tauto |].
  unfold sortOn in *. simpl. rewrite insertOn_In_iff, IH. intuition.
Qed.

Lemma insertOn_length {A : Type} (before : A -> A -> bool) (x : A) (l : list A) :
  List.length (insertOn before x l) = S (List.length l).
Proof.
  induction l as [| z l IH]; simpl; [reflexivity |].
  destruct (before x z); simpl; [reflexivity | rewrite IH; reflexivity].
Qed.

Lemma sortOn_length {A : Type} (before : A -> A -> bool) (l : list A) :
  List.length (sortOn before l) = List.length l.
Proof.
  induction l as [| z l IH]; [reflexivity |].
  unfold sortOn in *. simpl. rewrite insertOn_length, IH. reflexivity.
Qed.

Lemma take_In {A : Type} (n : Z) (x : A) (l : list A) :
  In x (take n l) -> In x l.
Proof.
  unfold take. destruct (0 <=? n).
  - intros H. rewrite <- (firstn_skipn (Z.to_nat n) l). apply in_or_app. now left.
  - intros H. rewrite <- (firstn_skipn (List.length l - Z.to_nat (- n)) l).
    apply in_or_app. now right.
Qed.

Lemma take_length {A : Type} (n : Z) (l : list A) :
  (List.length (take n l) <= Z.to_nat (Z.abs n))%nat.
Proof.
  unfold take. destruct (Z.leb_spec 0 n).
  - rewrite length_firstn. lia.
  - rewrite length_skipn. lia.
Qed.

Lemma take_all {A : Type} (n : Z) (l : list A) :
  Z.of_nat (List.length l) <= Z.abs n -> take n l = l.
Proof.
  unfold take. intros H. destruct (Z.leb_spec 0 n).
  - apply firstn_all2. lia.
  - replace (List.length l - Z.to_nat (- n))%nat with 0%nat by lia. reflexivity.
Qed.

Section Groups.
Context {K : Type} (eqb : K -> K -> bool).
Hypothesis eqb_spec : forall a b, eqb a b = true <-> a = b.

Lemma eqb_decide (a b : K) : {a = b} + {a <> b}.
Proof.
  destruct (eqb a b) eqn:E.
  - left. apply eqb_spec, E.
  - right. intros H. apply eqb_spec in H. congruence.
Qed.

Lemma groupOf_tally (acc : list (K * nat)) (k e : K) :
  groupOf eqb (tally eqb acc k) e =
  if eqb k e then Some match groupOf eqb acc k with
                       | Some c => S c
                       | None => 1%nat
                       end
  else groupOf eqb acc e.
Proof.
  induction acc as [| [k0 c] acc IH]; simpl.
  - destruct (eqb k e); reflexivity.
  - destruct (eqb k0 k) eqn:E0; simpl.
    + apply eqb_spec in E0. subst k0. destruct (eqb k e); reflexivity.
    + rewrite IH. destruct (eqb k e) eqn:E; [| reflexivity].
      apply eqb_spec in E. subst e. rewrite E0. reflexivity.
Qed.

Lemma keys_tally (acc : list (K * nat)) (k e : K) :
  In e (map fst (tally eqb acc k)) <-> e = k \/ In e (map fst acc).
Proof.
  induction acc as [| [k0 c] acc IH]; simpl.
  - intuition.
  - destruct (eqb k0 k) eqn:E0; simpl.
    + apply eqb_spec in E0. subst k0. intuition.
    + rewrite IH. intuition.
Qed.

Lemma NoDup_tally (acc : list (K * nat)) (k : K) :
  NoDup (map fst acc) -> NoDup (map fst (tally eqb acc k)).
Proof.
  induction acc as [| [k0 c] acc IH]; simpl; intros H.
  - constructor; [intros [] | constructor].
  - inversion H as [| ? ? Hnotin Hrest]; subst.
    destruct (eqb k0 k) eqn:E0; simpl; [exact H |].
    constructor; [| apply IH, Hrest].
    rewrite keys_tally. intros [-> | Hin]; [| contradiction].
    assert (eqb k k = true) by (apply eqb_spec; reflexivity). congruence.
Qed.

Lemma In_groupOf (acc : list (K * nat)) (k : K) (n : nat) :
  NoDup (map fst acc) -> (In (k, n) acc <-> groupOf eqb acc k = Some n).
Proof.
  induction acc as [| [k0 c] acc IH]; simpl; intros H;
    [split; [intros [] | discriminate] |].
  inversion H as [| ? ? Hnotin Hrest]; subst.
  destruct (eqb k0 k) eqn:E0.
  - apply eqb_spec in E0. subst k0. split.
    + intros [[= ->] | Hin]; [reflexivity |].
      exfalso. apply Hnotin. apply (in_map fst) in Hin. exact Hin.
    + intros [= ->]. now left.
  - rewrite <- (IH Hrest). split; [| now right].
    intros [[= -> _] | Hin]; [| exact Hin].
    assert (eqb k k = true) by (apply eqb_spec; reflexivity). congruence.
Qed.

Lemma counts_tally (acc : list (K * nat)) (k : K) :
  list_sum (map snd (tally eqb acc k)) = S (list_sum (map snd acc)).
Proof.
  induction acc as [| [k0 c] acc IH]; simpl; [reflexivity |].
  destruct (eqb k0 k); simpl; [lia | rewrite IH; lia].
Qed.

(** What the [groupBy] fold has after the keys [seen]. *)
Lemma groupCount_invariant (keys seen : list K) (acc : list (K * nat)) :
  NoDup (map fst acc) ->
  (forall e, match groupOf eqb acc e with
             | None => filter (eqb e) seen = []
             | Some c => c = List.length (filter (eqb e) seen) /\ (1 <= c)%nat
             end) ->
  list_sum (map snd acc) = List.length seen ->
  let final := fold_left (tally eqb) keys acc in
  NoDup (map fst final) /\
  (forall e, match groupOf eqb final e with
             | None => filter (eqb e) (seen ++ keys) = []
             | Some c => c = List.length (filter (eqb e) (seen ++ keys)) /\ (1 <= c)%nat
             end) /\
  list_sum (map snd final) = List.length (seen ++ keys).
Proof.
  revert seen acc. induction keys as [| k keys IH]; intros seen acc Hnd Hlook Hcount.
  - simpl. rewrite app_nil_r. repeat split; assumption.
  - simpl.
    replace (seen ++ k :: keys)%list with ((seen ++ [k]) ++ keys)%list
      by (rewrite <- app_assoc; reflexivity).
    apply IH.
    + apply NoDup_tally, Hnd.
    + intros e. rewrite groupOf_tally, filter_app. cbn [filter].
      destruct (eqb k e) eqn:E.
      * apply eqb_spec in E. subst e.
        assert (Hkk : eqb k k = true) by (apply eqb_spec; reflexivity).
        rewrite Hkk. specialize (Hlook k).
        destruct (groupOf eqb acc k) as [c |].
        -- destruct Hlook as [-> Hpos]. rewrite length_app. simpl. lia.
        -- rewrite Hlook. simpl. lia.
      * assert (Hek : eqb e k = false).
        { destruct (eqb e k) eqn:E'; [| reflexivity].
          apply eqb_spec in E'. subst e.
          assert (eqb k k = true) by (apply eqb_spec; reflexivity). congruence. }
        rewrite Hek, app_nil_r. apply Hlook.
    + rewrite counts_tally, Hcount, length_app. simpl. lia.
Qed.

(** The groups of [groupBy]: one for each key that occurs, with the number of
    its occurrences; the counts add up to the number of rows. *)
Lemma groupCount_spec (keys : list K) :
  NoDup (map fst (groupCount eqb keys)) /\
  (forall e n, In (e, n) (groupCount eqb keys) <->
               n = List.length (filter (eqb e) keys) /\ (1 <= n)%nat) /\
  list_sum (map snd (groupCount eqb keys)) = List.length keys.
Proof.
  destruct (groupCount_invariant keys [] [] (NoDup_nil _)
              (fun _ => eq_refl) eq_refl) as (Hnd & Hlook & Hsum).
  simpl in Hnd, Hlook, Hsum. unfold groupCount.
  split; [exact Hnd | split; [| exact Hsum]].
  intros e n. rewrite (In_groupOf _ e n Hnd). specialize (Hlook e).
  destruct (groupOf eqb (fold_left (tally eqb) keys []) e) as [c |].
  - destruct Hlook as [Hc Hpos].
    split; [intros [= <-]; split; assumption | intros [-> _]; f_equal; exact Hc].
  - split; [discriminate |]. intros [-> Hpos]. rewrite Hlook in Hpos. simpl in Hpos. lia.
Qed.

End Groups.

Lemma ActivityEntity_eqb_spec (a b : ActivityEntity) :
  ActivityEntity_eqb a b = true <-> a = b.
Proof. destruct a, b; simpl; split; congruence. Qed.

Lemma sameUser_spec (a b : string * string) : sameUser a b = true <-> a = b.
Proof.
  destruct a as [a1 a2], b as [b1 b2]. unfold sameUser. simpl.
  rewrite andb_true_iff, !String.eqb_eq. split; [intros [-> ->]; reflexivity |].
  intros [= -> ->]. split; reflexivity.
Qed.

Lemma filter_map_length {A B : Type} (f : B -> bool) (g : A -> B) (l : list A) :
  List.length (filter f (map g l)) = List.length (filter (fun x => f (g x)) l).
Proof.
  induction l as [| x l IH]; simpl; [reflexivity |].
  destruct (f (g x)); simpl; rewrite IH; reflexivity.
Qed.

Lemma filter_length_le {A : Type} (f : A -> bool) (l : list A) :
  (List.length (filter f l) <= List.length l)%nat.
Proof.
  induction l as [| x l IH]; simpl; [lia |].
  destruct (f x); simpl; lia.
Qed.

(** X24: what a user who is not an administrator gets from the activity log.
    Whatever branch the query names, the rows returned are rows of the table
    that belong to the user's own branch; and when the limit is missing,
    unreadable or zero, there are at most 100 of them.  Nothing is
    written. *)
Theorem activity_list_is_scoped :
  forall (table : list StoredLog) (q : LogQuery) (w : World)
         (user : SessionUser) (b : string),
    session w = Some user ->
    role user <> "ADMIN" ->
    Branch.branchId user = Some b -> b <> "" ->
    summaryOf "branch" (querySummary q) (queryBranchId q) = None ->
    summaryOf "user" (querySummary q) (queryUserId q) = None ->
    exists rows,
      ActivityLogs.GET table q w
        = (Returned (mkLogsResponse (Activities rows) 200), w) /\
      (forall r, In r rows -> In r table /\ logBranchId (stored r) = b) /\
      (limitOf (queryLimit q) = None \/ limitOf (queryLimit q) = Some 0 ->
       (List.length rows <= 100)%nat).
Proof.
  intros table q w user b Hsession Hrole Hbranch Hb Hnob Hnou.
  assert (Hstaff : String.eqb (role user) "ADMIN" = false)
    by (apply String.eqb_neq, Hrole).
  assert (Hown : Js.orNull (Some b) = Some b).
  { unfold Js.orNull. destruct (String.eqb_spec b ""); [contradiction | reflexivity]. }
  eexists. split; [| split].
  - unfold ActivityLogs.GET, tryCatch, bind, requireAuth.
    rewrite Hsession. cbv beta iota. rewrite Hnob, Hnou, Hstaff, Hbranch.
    cbn [negb]. rewrite Hown. reflexivity.
  - intros r Hin. apply take_In in Hin. rewrite sortOn_In_iff, filter_In in Hin.
    destruct Hin as [Htable Hmatch]. split; [exact Htable |].
    unfold matchesFilters in Hmatch. cbn [ofBranchId] in Hmatch.
    rewrite Hown, Hown in Hmatch.
    rewrite !andb_true_iff in Hmatch.
    apply String.eqb_eq. tauto.
  - intros Hlimit.
    match goal with |- (List.length (take ?n ?l) <= _)%nat =>
      pose proof (take_length n l) as Hlen end.
    cbn [limit] in Hlen.
    destruct Hlimit as [E | E]; rewrite E in *; simpl in Hlen; exact Hlen.
Qed.

Lemma activity_list_is_scoped_witness :
  exists rows,
    ActivityLogs.GET [accraLog; koforiduaLog] koforiduaQuery Scenario.shop
      = (Returned (mkLogsResponse (Activities rows) 200), Scenario.shop) /\
    (forall r, In r rows ->
               In r [accraLog; koforiduaLog] /\ logBranchId (stored r) = "B1").
Proof.
  destruct (activity_list_is_scoped [accraLog; koforiduaLog] koforiduaQuery
              Scenario.shop Scenario.ama "B1" eq_refl
              ltac:(discriminate) eq_refl ltac:(discriminate) eq_refl eq_refl)
    as (rows & Hget & Hscope & _).
  exists rows. split; assumption.
Defined.

(** X25: the branch summary of the activity log is answered before the
    handler looks at the role or the branch of the user.  Any signed-in user
    who asks for the summary of a branch gets it: the number of rows of that
    branch, the number of recent ones, which is no larger, and at most five
    users, each with the number of rows of the branch that are theirs.
    Nothing is written. *)
Theorem branch_summary_is_open_to_any_user :
  forall (table : list StoredLog) (q : LogQuery) (w : World)
         (user : SessionUser) (b : string),
    session w = Some user ->
    querySummary q = Some "branch" ->
    queryBranchId q = Some b -> b <> "" ->
    exists s,
      ActivityLogs.GET table q w
        = (Returned (mkLogsResponse (BranchSummaryBody s) 200), w) /\
      totalActivities s = List.length (filter (byBranch b) table) /\
      (recentActivities s <= totalActivities s)%nat /\
      (List.length (topUsers s) <= 5)%nat /\
      (forall u n,
          In (u, n) (topUsers s) ->
          n = List.length
                (filter (fun l => sameUser u (logUserId (stored l),
                                              logUserName (stored l)))
                        (filter (byBranch b) table)) /\
          (1 <= n)%nat).
Proof.
  intros table q w user b Hsession Hsummary Hbranch Hb.
  assert (Hasked : summaryOf "branch" (querySummary q) (queryBranchId q) = Some b).
  { unfold summaryOf. rewrite Hsummary, Hbranch. simpl. unfold Js.orNull.
    destruct (String.eqb_spec b ""); [contradiction | reflexivity]. }
  eexists. split; [| split; [| split; [| split]]].
  - unfold ActivityLogs.GET, tryCatch, bind, requireAuth.
    rewrite Hsession. cbv beta iota. rewrite Hasked. reflexivity.
  - reflexivity.
  - cbn [recentActivities totalActivities]. apply filter_length_le.
  - cbn [topUsers].
    match goal with |- (List.length (take ?n ?l) <= _)%nat =>
      pose proof (take_length n l) as Hlen end.
    simpl in Hlen. exact Hlen.
  - intros u n Hin. cbn [topUsers] in Hin.
    apply take_In in Hin. rewrite sortOn_In_iff in Hin.
    apply (groupCount_spec sameUser sameUser_spec) in Hin.
    rewrite filter_map_length in Hin. exact Hin.
Qed.

Lemma branch_summary_is_open_to_any_user_witness :
  exists s,
    ActivityLogs.GET [accraLog; koforiduaLog] koforiduaSummary Scenario.shop
      = (Returned (mkLogsResponse (BranchSummaryBody s) 200), Scenario.shop) /\
    totalActivities s = 1%nat.
Proof.
  destruct (branch_summary_is_open_to_any_user [accraLog; koforiduaLog]
              koforiduaSummary Scenario.shop Scenario.ama "B2" eq_refl eq_refl
              eq_refl ltac:(discriminate))
    as (s & Hget & Htotal & _).
  exists s. split; [exact Hget | exact Htotal].
Defined.

(** X26: the activity summary of a user.  The total is the number of rows of
    the user, the recent count is no larger, and [activityByType] has one
    entry for each kind of entity the user has rows for, with the number of
    those rows, so that the counts add up to the total. *)
Theorem user_summary_adds_up :
  forall (table : list StoredLog) (userId : string) (w : World),
    exists s,
      getUserActivitySummary table userId w = (Returned s, w) /\
      userTotalActivities s = List.length (filter (byUser userId) table) /\
      (userRecentActivities s <= userTotalActivities s)%nat /\
      NoDup (map fst (activityByType s)) /\
      list_sum (map snd (activityByType s)) = userTotalActivities s /\
      (forall e n,
          In (e, n) (activityByType s) <->
          n = List.length
                (filter (fun l => ActivityEntity_eqb e (logEntity (stored l)))
                        (filter (byUser userId) table)) /\
          (1 <= n)%nat).
Proof.
  intros table userId w.
  destruct (groupCount_spec ActivityEntity_eqb ActivityEntity_eqb_spec
              (map (fun l => logEntity (stored l)) (filter (byUser userId) table)))
    as (Hnd & Hgroups & Hsum).
  eexists. split; [reflexivity |].
  cbn [userTotalActivities userRecentActivities activityByType].
  split; [reflexivity |]. split; [apply filter_length_le |].
  split; [exact Hnd |]. split; [rewrite Hsum; apply length_map |].
  intros e n. rewrite Hgroups, filter_map_length. reflexivity.
Qed.

(** ** The SMS reminder *)

Import Notifications.


(** X28: [sendSMSReminder] never throws, whatever the provider does.  Unless
    notifications are switched on it answers [false] without making a client,
    leaving one line on the console; it answers [true] only when they are on
    and both credentials are set; and for an order due in more than five days
    it answers [false] and sends nothing. *)
Theorem sendSMSReminder_never_throws :
  forall (env : Env) (twilio : string -> string -> M (TwilioMessage -> M unit))
         (phoneNumber orderNumber : string) (dueDate : Date)
         (customerName : string) (w : World),
    let run := sendSMSReminder env twilio phoneNumber orderNumber dueDate
                               customerName w in
    (exists sent w', run = (Returned sent, w')) /\
    (isText (ENABLE_SMS_NOTIFICATIONS env) "true" = false ->
     run = (Returned false,
            withConsole w (console w ++ ["SMS notifications disabled"]))) /\
    (forall w', run = (Returned true, w') ->
                isText (ENABLE_SMS_NOTIFICATIONS env) "true" = true /\
                Js.orNull (TWILIO_ACCOUNT_SID env) <> None /\
                Js.orNull (TWILIO_AUTH_TOKEN env) <> None) /\
    (forall sid token client,
        isText (ENABLE_SMS_NOTIFICATIONS env) "true" = true ->
        Js.orNull (TWILIO_ACCOUNT_SID env) = Some sid ->
        Js.orNull (TWILIO_AUTH_TOKEN env) = Some token ->
        twilio sid token w = (Returned client, w) ->
        6 <= calculateDaysToDue (clock w) dueDate ->
        run = (Returned false, w)).
Proof.
  intros env twilio phoneNumber orderNumber dueDate customerName w run.
  assert (Hrun : run = sendSMSReminder env twilio phoneNumber orderNumber dueDate
                                       customerName w) by reflexivity.
  clearbody run. unfold sendSMSReminder in Hrun.
  destruct (isText (ENABLE_SMS_NOTIFICATIONS env) "true") eqn:Henabled;
    cbn [negb] in Hrun.
  - destruct (Js.orNull (TWILIO_ACCOUNT_SID env)) as [sid |] eqn:Hsid;
      [destruct (Js.orNull (TWILIO_AUTH_TOKEN env)) as [token |] eqn:Htoken |].
    + unfold tryCatch, bind in Hrun.
      destruct (twilio sid token w) as [[client | e] w1] eqn:Hclient;
        try rewrite Hclient in Hrun.
      * destruct (reminderText (getDueDateUrgency (clock w1) dueDate)
                    (calculateDaysToDue (clock w1) dueDate)
                    customerName orderNumber) as [message |] eqn:Htext;
          try rewrite Htext in Hrun.
        -- assert (Hsoon : ~ 6 <= calculateDaysToDue (clock w1) dueDate).
           { revert Htext. unfold getDueDateUrgency. cbv zeta.
             tier_cases; cbn [reminderText]; intros Htext;
               try discriminate; lia. }
           unfold console_log, ret in Hrun.
           destruct (client (mkMessage message (TWILIO_PHONE_NUMBER env)
                                       phoneNumber) w1)
             as [[[] | e] w2] eqn:Hsend; try rewrite Hsend in Hrun;
             unfold console_error in Hrun; subst run;
             (split; [eexists; eexists; reflexivity |]);
             (split; [discriminate |]);
             (split; [intros w' H; repeat split; congruence |]);
             intros sid' token' client' _ [= <-] [= <-] Hmade Hdays;
             rewrite Hclient in Hmade; injection Hmade as <- <-;
             contradiction.
        -- unfold ret in Hrun. subst run.
           split; [eexists; eexists; reflexivity |].
           split; [discriminate |].
           split; [intros w' H; discriminate |].
           intros sid' token' client' _ [= <-] [= <-] Hmade Hdays.
           rewrite Hclient in Hmade. injection Hmade as <- <-. reflexivity.
      * unfold console_error, ret in Hrun. subst run.
        split; [eexists; eexists; reflexivity |].
        split; [discriminate |].
        split; [intros w' H; discriminate |].
        intros sid' token' client' _ [= <-] [= <-] Hmade Hdays. congruence.
    + unfold bind, console_log, ret in Hrun. subst run.
      split; [eexists; eexists; reflexivity |].
      split; [discriminate |].
      split; [intros w' H; discriminate |].
      intros sid' token' client' _ _ [=].
    + unfold bind, console_log, ret in Hrun. subst run.
      split; [eexists; eexists; reflexivity |].
      split; [discriminate |].
      split; [intros w' H; discriminate |].
      intros sid' token' client' _ [=].
  - unfold bind, console_log, ret in Hrun. subst run.
    split; [eexists; eexists; reflexivity |].
    split; [reflexivity |].
    split; [intros w' H; discriminate |].
    intros sid' token' client' [=].
Qed.
